(** * ripple-python: the transaction signing core ([ripple/sign.py])

    A shallow embedding of [ripple/sign.py] (Python 2) and the properties
    of its key derivation, hashing, signing and address derivation.

    Conventions of the embedding:
    - a Python 2 [str] is a [string]: a sequence of 8-bit characters that
      the source uses both for text and for raw bytes;
    - a Python [int]/[long] is a [Z];
    - a raised exception is the [Raise] case of [result];
    - functions that touch the caller's transaction object, standard
      output or the system's entropy are state passing over [world];
    - the external collaborators (the base-58 codec and the transaction
      serializer of the [serialize] module, [hashlib], the signing
      primitive of [ecdsa]) are section variables. *)

From Bignums Require Import BigZ.
From Stdlib Require Import ZArith String Ascii List Lia Bool Zwf.
From stdpp Require Import base gmap strings.
From Equations Require Import Equations.
Import ListNotations.
Local Open Scope Z_scope.

(** ** Exceptions and fallible results *)

Inductive exn : Type :=
| AssertionError
| IndexError
| TypeError
| ValueError
| OtherError (msg : string).

Inductive result (A : Type) : Type :=
| Ok (a : A)
| Raise (e : exn).
Arguments Ok {A} a.
Arguments Raise {A} e.

#[export] Instance result_ret : MRet result := fun A a => Ok a.
#[export] Instance result_bind : MBind result := fun A B f m =>
  match m with
  | Ok a => f a
  | Raise e => Raise e
  end.

Definition inspect {A : Type} (a : A) : {b : A | a = b} := exist _ a eq_refl.

(** ** Python 2 strings *)

Definition ord (c : ascii) : Z := Z.of_N (N_of_ascii c).
Definition chr (z : Z) : ascii := ascii_of_N (Z.to_N z).

(** [n.bit_length()] *)
Definition bit_length (n : Z) : Z :=
  if n =? 0 then 0 else Z.log2 (Z.abs n) + 1.

(** [s[:n]] *)
Fixpoint slice_to (n : nat) (s : string) : string :=
  match n, s with
  | S n', String c s' => String c (slice_to n' s')
  | _, _ => EmptyString
  end.

(** [c.upper()] and [s.upper()] in the C locale *)
Definition upper_char (c : ascii) : ascii :=
  if (97 <=? ord c) && (ord c <=? 122) then chr (ord c - 32) else c.

Fixpoint upper (s : string) : string :=
  match s with
  | EmptyString => EmptyString
  | String c s' => String (upper_char c) (upper s')
  end.

(** One hexadecimal digit, lower case as [s.encode('hex')] writes it. *)
Definition hex_digit (d : Z) : ascii :=
  if d <? 10 then chr (48 + d) else chr (87 + d).

(** [s.encode('hex')] *)
Fixpoint hex_encode (s : string) : string :=
  match s with
  | EmptyString => EmptyString
  | String c s' =>
      String (hex_digit (ord c / 16)) (String (hex_digit (ord c mod 16)) (hex_encode s'))
  end.

(** ** The primitive codec of the [serialize] module *)

Module Codec.

Fixpoint from_bytes_acc (acc : Z) (s : string) : Z :=
  match s with
  | EmptyString => acc
  | String c s' => from_bytes_acc (acc * 256 + ord c) s'
  end.

(** Modelled from the spec: [from_bytes] of the [serialize] module, which
    is not part of the sources at hand; section 4.1, "decode_uint(bytes)
    -> unsigned integer", big-endian as everywhere in the core. *)
Definition from_bytes (s : string) : Z := from_bytes_acc 0 s.

Fixpoint big_endian (width : nat) (value : Z) (tail : string) : string :=
  match width with
  | O => tail
  | S w => big_endian w (value / 256) (String (chr (value mod 256)) tail)
  end.

(** The least number of bytes that hold [value]. *)
Definition byte_length (value : Z) : nat :=
  if value =? 0 then O else Z.to_nat (Z.log2 value / 8 + 1).

(** Modelled from the spec: [to_bytes] of the [serialize] module, which
    is not part of the sources at hand; section 4.1, "encode_uint(value,
    width) -> big-endian byte string, error if value does not fit in
    width bytes when width is given, unbounded width otherwise", and
    section 4.2, "minimal width" when no width is given.  The encoding is
    unsigned: a negative value is refused as well. *)
Definition to_bytes (value : Z) (length : option Z) : result string :=
  if value <? 0 then Raise ValueError
  else match length with
       | None => Ok (big_endian (byte_length value) value EmptyString)
       | Some width =>
           if value <? 256 ^ width
           then Ok (big_endian (Z.to_nat width) value EmptyString)
           else Raise ValueError
       end.

(** One upper-case hexadecimal digit. *)
Definition upper_hex_digit (d : Z) : ascii :=
  if d <? 10 then chr (48 + d) else chr (55 + d).

(** Modelled from the spec: [fmt_hex] of the [serialize] module, which is
    not part of the sources at hand; section 4.1, "to_upper_hex(bytes) ->
    uppercase hex string". *)
Fixpoint fmt_hex (s : string) : string :=
  match s with
  | EmptyString => EmptyString
  | String c s' =>
      String (upper_hex_digit (ord c / 16))
        (String (upper_hex_digit (ord c mod 16)) (fmt_hex s'))
  end.

End Codec.
Import Codec.

(** ** SHA-512 (FIPS 180-4), the function behind [hashlib.sha512] *)

Module SHA512.

Definition wrap (x : Z) : Z := x mod 2 ^ 64.
Definition ROTR (n x : Z) : Z :=
  Z.lor (Z.shiftr x n) (wrap (Z.shiftl x (64 - n))).
Definition SHR (n x : Z) : Z := Z.shiftr x n.
Definition Ch (x y z : Z) : Z :=
  Z.lxor (Z.land x y) (Z.land (Z.lxor x (2 ^ 64 - 1)) z).
Definition Maj (x y z : Z) : Z :=
  Z.lxor (Z.lxor (Z.land x y) (Z.land x z)) (Z.land y z).
Definition Sigma0 (x : Z) : Z := Z.lxor (Z.lxor (ROTR 28 x) (ROTR 34 x)) (ROTR 39 x).
Definition Sigma1 (x : Z) : Z := Z.lxor (Z.lxor (ROTR 14 x) (ROTR 18 x)) (ROTR 41 x).
Definition sigma0 (x : Z) : Z := Z.lxor (Z.lxor (ROTR 1 x) (ROTR 8 x)) (SHR 7 x).
Definition sigma1 (x : Z) : Z := Z.lxor (Z.lxor (ROTR 19 x) (ROTR 61 x)) (SHR 6 x).

Definition K : list Z :=
  [ 0x428a2f98d728ae22; 0x7137449123ef65cd; 0xb5c0fbcfec4d3b2f; 0xe9b5dba58189dbbc;
    0x3956c25bf348b538; 0x59f111f1b605d019; 0x923f82a4af194f9b; 0xab1c5ed5da6d8118;
    0xd807aa98a3030242; 0x12835b0145706fbe; 0x243185be4ee4b28c; 0x550c7dc3d5ffb4e2;
    0x72be5d74f27b896f; 0x80deb1fe3b1696b1; 0x9bdc06a725c71235; 0xc19bf174cf692694;
    0xe49b69c19ef14ad2; 0xefbe4786384f25e3; 0x0fc19dc68b8cd5b5; 0x240ca1cc77ac9c65;
    0x2de92c6f592b0275; 0x4a7484aa6ea6e483; 0x5cb0a9dcbd41fbd4; 0x76f988da831153b5;
    0x983e5152ee66dfab; 0xa831c66d2db43210; 0xb00327c898fb213f; 0xbf597fc7beef0ee4;
    0xc6e00bf33da88fc2; 0xd5a79147930aa725; 0x06ca6351e003826f; 0x142929670a0e6e70;
    0x27b70a8546d22ffc; 0x2e1b21385c26c926; 0x4d2c6dfc5ac42aed; 0x53380d139d95b3df;
    0x650a73548baf63de; 0x766a0abb3c77b2a8; 0x81c2c92e47edaee6; 0x92722c851482353b;
    0xa2bfe8a14cf10364; 0xa81a664bbc423001; 0xc24b8b70d0f89791; 0xc76c51a30654be30;
    0xd192e819d6ef5218; 0xd69906245565a910; 0xf40e35855771202a; 0x106aa07032bbd1b8;
    0x19a4c116b8d2d0c8; 0x1e376c085141ab53; 0x2748774cdf8eeb99; 0x34b0bcb5e19b48a8;
    0x391c0cb3c5c95a63; 0x4ed8aa4ae3418acb; 0x5b9cca4f7763e373; 0x682e6ff3d6b2b8a3;
    0x748f82ee5defb2fc; 0x78a5636f43172f60; 0x84c87814a1f0ab72; 0x8cc702081a6439ec;
    0x90befffa23631e28; 0xa4506cebde82bde9; 0xbef9a3f7b2c67915; 0xc67178f2e372532b;
    0xca273eceea26619c; 0xd186b8c721c0c207; 0xeada7dd6cde0eb1e; 0xf57d4f7fee6ed178;
    0x06f067aa72176fba; 0x0a637dc5a2c898a6; 0x113f9804bef90dae; 0x1b710b35131c471b;
    0x28db77f523047d84; 0x32caab7b40c72493; 0x3c9ebe0a15c9bebc; 0x431d67c49c100d4c;
    0x4cc5d4becb3e42b6; 0x597f299cfc657e2a; 0x5fcb6fab3ad6faec; 0x6c44198c4a475817 ].

(** Padding: a 1 bit, zeros up to 112 modulo 128 bytes, then the length
    of the message in bits as a 128-bit big-endian number. *)
Definition pad (msg : string) : string :=
  let len := Z.of_nat (String.length msg) in
  let zeros := Z.to_nat ((111 - len) mod 128) in
  msg +:+ String (chr 128) (big_endian zeros 0 (big_endian 16 (8 * len) EmptyString)).

(** The sixteen 64-bit words of a 128-byte block, and the rest. *)
Fixpoint words (n : nat) (s : string) : list Z * string :=
  match n with
  | O => ([], s)
  | S n' =>
      let (ws, rest) := words n' (String.substring 8 (String.length s - 8) s) in
      (from_bytes (slice_to 8 s) :: ws, rest)
  end.

(** The message schedule, newest word first. *)
Fixpoint schedule (n : nat) (ws : list Z) : list Z :=
  match n with
  | O => ws
  | S n' =>
      schedule n'
        (wrap (sigma1 (nth 1 ws 0) + nth 6 ws 0 + sigma0 (nth 14 ws 0) + nth 15 ws 0) :: ws)
  end.

Definition state : Type := Z * Z * Z * Z * Z * Z * Z * Z.

Definition round (st : state) (kw : Z * Z) : state :=
  let '(a, b, c, d, e, f, g, h) := st in
  let T1 := wrap (h + Sigma1 e + Ch e f g + fst kw + snd kw) in
  let T2 := wrap (Sigma0 a + Maj a b c) in
  (wrap (T1 + T2), a, b, c, wrap (d + T1), e, f, g).

Definition compress (st : state) (block : list Z) : state :=
  let W := rev (schedule 64 (rev block)) in
  let '(a, b, c, d, e, f, g, h) := fold_left round (combine K W) st in
  let '(a0, b0, c0, d0, e0, f0, g0, h0) := st in
  (wrap (a0 + a), wrap (b0 + b), wrap (c0 + c), wrap (d0 + d),
   wrap (e0 + e), wrap (f0 + f), wrap (g0 + g), wrap (h0 + h)).

Fixpoint blocks (n : nat) (s : string) (st : state) : state :=
  match n with
  | O => st
  | S n' => let (block, rest) := words 16 s in blocks n' rest (compress st block)
  end.

Definition H0 : state :=
  (0x6a09e667f3bcc908, 0xbb67ae8584caa73b, 0x3c6ef372fe94f82b, 0xa54ff53a5f1d36f1,
   0x510e527fade682d1, 0x9b05688c2b3e6c1f, 0x1f83d9abfb41bd6b, 0x5be0cd19137e2179).

(** [hashlib.sha512(msg).digest()] *)
Definition digest (msg : string) : string :=
  let padded := pad msg in
  let '(a, b, c, d, e, f, g, h) :=
    blocks (String.length padded / 128) padded H0 in
  fold_right (fun w tail => big_endian 8 w tail) EmptyString [a; b; c; d; e; f; g; h].

End SHA512.

(** ** The curve [ecdsa.curves.SECP256k1] *)

Module SECP256k1.

Definition p : Z := 2 ^ 256 - 2 ^ 32 - 977.
Definition order : Z :=
  0xFFFFFFFFFFFFFFFFFFFFFFFFFFFFFFFEBAAEDCE6AF48A03BBFD25E8CD0364141.

(** A point of [ecdsa.ellipticcurve]: [INFINITY] has no coordinates. *)
Inductive point : Type :=
| INFINITY
| Point (x y : Z).

Definition generator : point :=
  Point 0x79BE667EF9DCBBAC55A06295CE870B07029BFCDB2DCE28D959F2815B16F81798
        0x483ADA7726A3C4655DA4FBFC0E1108A8FD17B448A68554199C47D08FFB10D4B8.

(** [y^2 = x^3 + 7] over the field of [p] elements *)
Definition on_curve (x y : Z) : Prop :=
  0 <= x < p /\ 0 <= y < p /\ (y * y) mod p = (x * x * x + 7) mod p.

(** The group law in affine coordinates, as [ecdsa.ellipticcurve] has
    it.  The field arithmetic runs on machine-word integers so that a
    scalar multiplication can be evaluated. *)
Section Arithmetic.
Local Open Scope bigZ_scope.

Definition big_p : bigZ := BigZ.of_Z p.

(** [numbertheory.inverse_mod]: the extended Euclidean algorithm. *)
Fixpoint egcd (fuel : nat) (c d uc ud : bigZ) : bigZ :=
  match fuel with
  | O => ud
  | S fuel' =>
      if c =? 0 then ud
      else let (q, r) := BigZ.div_eucl d c in egcd fuel' r c (ud - q * uc) uc
  end.

Definition inverse_mod (a : bigZ) : bigZ :=
  egcd 1024 (a mod big_p) big_p 1 0 mod big_p.

Definition big_double (P : bigZ * bigZ) : option (bigZ * bigZ) :=
  let (x, y) := P in
  if y =? 0 then None
  else
    let l := ((3 * x * x) * inverse_mod (2 * y)) mod big_p in
    let x3 := (l * l - 2 * x) mod big_p in
    Some (x3, (l * (x - x3) - y) mod big_p).

Definition big_add (P Q : option (bigZ * bigZ)) : option (bigZ * bigZ) :=
  match P, Q with
  | _, None => P
  | None, _ => Q
  | Some (x1, y1), Some (x2, y2) =>
      if x1 =? x2 then
        if (y1 + y2) mod big_p =? 0 then None else big_double (x1, y1)
      else
        let l := ((y2 - y1) * inverse_mod (x2 - x1)) mod big_p in
        let x3 := (l * l - x1 - x2) mod big_p in
        Some (x3, (l * (x1 - x3) - y1) mod big_p)
  end.

Fixpoint big_mul (P : option (bigZ * bigZ)) (e : positive) : option (bigZ * bigZ) :=
  match e with
  | xH => P
  | xO e' => let Q := big_mul P e' in big_add Q Q
  | xI e' => let Q := big_mul P e' in big_add (big_add Q Q) P
  end.

End Arithmetic.

Definition mul (P : point) (e : positive) : point :=
  let P' :=
    match P with
    | INFINITY => None
    | Point x y => Some (BigZ.of_Z x, BigZ.of_Z y)
    end in
  match big_mul P' e with
  | None => INFINITY
  | Some (x, y) => Point (BigZ.to_Z x) (BigZ.to_Z y)
  end.

(** [generator * other]: the scalar is reduced modulo the order of the
    generator first, and a zero scalar gives [INFINITY]. *)
Definition generator_mul (other : Z) : point :=
  match other mod order with
  | Zpos e => mul generator e
  | _ => INFINITY
  end.

End SECP256k1.
Export SECP256k1 (point(..)).

(** ** The state the program runs in *)

(** The values of a transaction's fields that the core writes or that the
    serializer reads. *)
Inductive pyvalue : Type :=
| PyStr (s : string)
| PyInt (z : Z).

(** A reference to a Python object. *)
Definition loc : Type := positive.

(** The [dict] objects of the caller, the text written to standard output
    so far and the number of draws made from the system's entropy. *)
Record world : Type := World {
  heap : gmap loc (gmap string pyvalue);
  stdout : string;
  drawn : nat
}.

Definition M (A : Type) : Type := world -> result A * world.

#[export] Instance M_ret : MRet M := fun A a w => (Ok a, w).
#[export] Instance M_bind : MBind M := fun A B f m w =>
  match m w with
  | (Ok a, w') => f a w'
  | (Raise e, w') => (Raise e, w')
  end.

(** A computation without effect. *)
Definition lift {A : Type} (r : result A) : M A := fun w => (r, w).

(** [obj[key] = value] on a [dict]; a reference that holds no [dict]
    does not support item assignment. *)
Definition setitem (obj : loc) (key : string) (value : pyvalue) : M unit := fun w =>
  match heap w !! obj with
  | Some d =>
      (Ok tt, {| heap := <[obj := <[key := value]> d]> (heap w);
                 stdout := stdout w; drawn := drawn w |})
  | None => (Raise TypeError, w)
  end.

(** The fields of a [dict], as a callee that is handed the object reads
    them. *)
Definition fields (obj : loc) : M (gmap string pyvalue) := fun w =>
  match heap w !! obj with
  | Some d => (Ok d, w)
  | None => (Raise TypeError, w)
  end.

Definition newline : string := String (chr 10) EmptyString.

(** The [print] statement: the text and a newline go to standard output. *)
Definition print (text : string) : M unit := fun w =>
  (Ok tt, {| heap := heap w;
             stdout := stdout w +:+ text +:+ newline;
             drawn := drawn w |}).

(** ** [ripple/sign.py] *)

(** The relation along which the counters of the two sampling loops
    climb: a 4-byte counter cannot pass [2 ^ 32]. *)
Definition Zwf_up_guarded (c : Z) : well_founded (Zwf_up c) :=
  Acc_intro_generator 16 (Zwf_up_well_founded c).
#[local] Instance Zwf_up_wf (c : Z) : WellFounded (Zwf_up c) := Zwf_up_guarded c.
#[local] Opaque Zwf_up_guarded.

(** [HASH_TX_SIGN], [HASH_TX_SIGN_TESTNET] *)
Definition HASH_TX_SIGN : Z := 0x53545800.
Definition HASH_TX_SIGN_TESTNET : Z := 0x73747800.

(** The key object that [SigningKey.from_secret_exponent] builds, with the
    two generators that [root_key_from_seed] attaches to it. *)
Record SigningKey : Type := {
  secret_multiplier : Z;
  public_point : point;
  private_gen : Z;
  public_gen : point
}.

Section Sign.

(** [hashlib]: the digests of a whole message. *)
Variable sha512 : string -> string.
Variable sha256 : string -> string.
Variable ripemd160 : string -> string.

(** [curves.SECP256k1.generator * other] *)
Variable generator_mul : Z -> point.

(** [RippleBaseDecoder.decode], [RippleBaseDecoder.encode] and
    [serialize_object] of the [serialize] module. *)
Variable RippleBaseDecoder_decode : string -> result string.
Variable RippleBaseDecoder_encode : string -> result string.
Variable serialize_object : gmap string pyvalue -> result string.

(** [ecdsa]: the nonce of the [n]-th draw from the system's entropy, the
    signature [(r, s)] of a number under a secret multiplier and a nonce,
    and [sigencode_der]. *)
Variable randrange : nat -> Z.
Variable Private_key_sign : Z -> Z -> Z -> result (Z * Z).
Variable sigencode_der : Z -> Z -> string.

(** A [hashlib] object holds the bytes it was fed. *)
Definition hash_update (hash part : string) : string := hash +:+ part.

Definition first_half_of_sha512 (bytes : list string) : string :=
  let hash := fold_left hash_update bytes EmptyString in
  slice_to (Z.to_nat (256 / 8)) (sha512 hash).

Definition ecc_point_to_bytes_compressed (point : point) (pad : bool) : result string :=
  match point with
  | INFINITY => Raise TypeError
  | Point x y =>
      let header := if y mod 2 =? 0 then String (chr 2) EmptyString
                    else String (chr 3) EmptyString in
      bytes ← to_bytes x (if pad then Some (bit_length SECP256k1.order / 8) else None);
      Ok (header +:+ bytes)
  end.

Definition parse_seed (secret : string) : M string :=
  match secret with
  | EmptyString => lift (Raise IndexError)
  | String c _ =>
      if Ascii.eqb c "s" then lift (RippleBaseDecoder_decode secret)
      else lift (Raise AssertionError)
  end.

(** The first loop of [root_key_from_seed], from the counter [seq] on. *)
Equations? private_gen_loop (seed : string) (seq : Z) : result Z
  by wf seq (Zwf_up (2 ^ 32)) :=
  private_gen_loop seed seq with inspect (to_bytes seq (Some 4)) := {
    | exist _ (Raise e) _ => Raise e
    | exist _ (Ok counter) Hcounter =>
        let private_gen := from_bytes (first_half_of_sha512 [seed +:+ counter]) in
        if SECP256k1.order >=? private_gen then Ok private_gen
        else private_gen_loop seed (seq + 1) }.
Proof.
  unfold to_bytes in Hcounter.
  destruct (_ <? 0) eqn:Hneg; [discriminate|].
  destruct (_ <? 256 ^ 4) eqn:Hfit; [|discriminate].
  unfold Zwf_up. lia.
Qed.

(** The second loop of [root_key_from_seed], from the counter [i] on. *)
Equations? secret_loop (public_gen_compressed : string) (i : Z) : result Z
  by wf i (Zwf_up (2 ^ 32)) :=
  secret_loop public_gen_compressed i with to_bytes 0 (Some 4) := {
    | Raise e => Raise e
    | Ok zero with inspect (to_bytes i (Some 4)) := {
      | exist _ (Raise e) _ => Raise e
      | exist _ (Ok counter) Hcounter =>
          let secret :=
            from_bytes (first_half_of_sha512
                          [public_gen_compressed +:+ zero +:+ counter]) in
          if SECP256k1.order >=? secret then Ok secret
          else secret_loop public_gen_compressed (i + 1) } }.
Proof.
  unfold to_bytes in Hcounter.
  destruct (_ <? 0) eqn:Hneg; [discriminate|].
  destruct (_ <? 256 ^ 4) eqn:Hfit; [|discriminate].
  unfold Zwf_up. lia.
Qed.

(** [root_key_from_seed] up to the secret exponent it hands to
    [SigningKey.from_secret_exponent]: the private generator, the public
    generator and the exponent. *)
Definition root_secret_from_seed (seed : string) : result (Z * point * Z) :=
  private_gen ← private_gen_loop seed 0;
  let public_gen := generator_mul private_gen in
  public_gen_compressed ← ecc_point_to_bytes_compressed public_gen false;
  secret ← secret_loop public_gen_compressed 0;
  let secret := secret + private_gen mod SECP256k1.order in
  Ok (private_gen, public_gen, secret).

(** [SigningKey.from_secret_exponent(secexp, curves.SECP256k1)]: the
    exponent must lie in [[1, order - 1]]. *)
Definition from_secret_exponent (secexp : Z) : result (Z * point) :=
  if (1 <=? secexp) && (secexp <? SECP256k1.order)
  then Ok (secexp, generator_mul secexp)
  else Raise AssertionError.

Definition root_key_from_seed (seed : string) : M SigningKey :=
  '(private_gen, public_gen, secret) ← lift (root_secret_from_seed seed);
  '(secexp, pubkey_point) ← lift (from_secret_exponent secret);
  mret {| secret_multiplier := secexp; public_point := pubkey_point;
          private_gen := private_gen; public_gen := public_gen |}.

(** [key.sign_number(number)]: a nonce is drawn, then the number is
    signed. *)
Definition sign_number (key : SigningKey) (number : Z) : M (Z * Z) := fun w =>
  (Private_key_sign (secret_multiplier key) number (randrange (drawn w)),
   {| heap := heap w; stdout := stdout w; drawn := S (drawn w) |}).

Definition ecdsa_sign (key : SigningKey) (bytes : string) : M string :=
  '(r, s) ← sign_number key (from_bytes bytes);
  let der_coded := sigencode_der r s in
  mret der_coded.

Definition get_ripple_from_pubkey (pubkey : string) : M string :=
  let ripemd160_digest := ripemd160 (sha256 pubkey) in
  _ ← print (upper (hex_encode ripemd160_digest));
  lift (RippleBaseDecoder_encode ripemd160_digest).

Definition get_ripple_from_secret (seed : string) : M string :=
  parsed ← parse_seed seed;
  key ← root_key_from_seed parsed;
  pubkey ← lift (ecc_point_to_bytes_compressed (public_point key) true);
  get_ripple_from_pubkey pubkey.

Definition create_signing_hash (transaction : loc) (testnet : bool) : M string :=
  let prefix := if testnet then HASH_TX_SIGN_TESTNET else HASH_TX_SIGN in
  prefix_bytes ← lift (to_bytes prefix (Some 4));
  transaction_fields ← fields transaction;
  serialized ← lift (serialize_object transaction_fields);
  let binary := first_half_of_sha512 [prefix_bytes; serialized] in
  mret (upper (hex_encode binary)).

Definition signature_for_transaction (transaction : loc) (secret : string) : M string :=
  seed ← parse_seed secret;
  key ← root_key_from_seed seed;
  pubkey ← lift (ecc_point_to_bytes_compressed (public_point key) true);
  _ ← setitem transaction "SigningPubKey" (PyStr (fmt_hex pubkey));
  signing_hash ← create_signing_hash transaction false;
  der_coded ← ecdsa_sign key signing_hash;
  mret (fmt_hex der_coded).

Definition sign_transaction (transaction : loc) (secret : string) : M loc :=
  sig ← signature_for_transaction transaction secret;
  _ ← setitem transaction "TxnSignature" (PyStr sig);
  mret transaction.

End Sign.

(** * The vocabulary of the properties *)

(** The four bytes of a counter. *)
Definition counter_bytes (k : Z) : string := big_endian 4 k EmptyString.

(** The candidate that the first loop computes at the counter [k], and the
    one that the second loop computes. *)
Definition private_gen_candidate (sha512 : string -> string) (seed : string) (k : Z) : Z :=
  from_bytes (first_half_of_sha512 sha512 [seed +:+ counter_bytes k]).

Definition secret_candidate (sha512 : string -> string) (public_gen_compressed : string)
    (k : Z) : Z :=
  from_bytes (first_half_of_sha512 sha512
                [public_gen_compressed +:+ counter_bytes 0 +:+ counter_bytes k]).

(** [k] is the first counter whose candidate passes the test
    [order >= candidate] of the loops. *)
Definition first_accepted (candidate : Z -> Z) (k : Z) : Prop :=
  0 <= k < 2 ^ 32 /\ candidate k <= SECP256k1.order /\
  forall j, 0 <= j < k -> SECP256k1.order < candidate j.

(** What a sampling loop started at the counter 0 comes to. *)
Definition sampled (candidate : Z -> Z) (r : result Z) : Prop :=
  match r with
  | Ok c => exists k, first_accepted candidate k /\ c = candidate k
  | Raise e =>
      e = ValueError /\ forall k, 0 <= k < 2 ^ 32 -> SECP256k1.order < candidate k
  end.

(** [m] returns the same result in every state and leaves the state as it
    found it. *)
Definition effect_free {A : Type} (m : M A) : Prop :=
  exists r, forall w, m w = (r, w).

(** [secret[0] == 's'], false as well when there is no first character. *)
Definition begins_with_s (secret : string) : bool :=
  match String.get 0 secret with
  | Some c => Ascii.eqb c "s"
  | None => false
  end.

(** The digest that [create_signing_hash] renders for the production
    network: [first_half_of_sha512(prefix, serialized)]. *)
Definition signing_digest (sha512 : string -> string) (serialized : string) : string :=
  first_half_of_sha512 sha512 [big_endian 4 HASH_TX_SIGN EmptyString; serialized].

(** A state with one component replaced. *)
Definition with_heap (w : world) (h : gmap loc (gmap string pyvalue)) : world :=
  {| heap := h; stdout := stdout w; drawn := drawn w |}.
Definition with_stdout (w : world) (out : string) : world :=
  {| heap := heap w; stdout := out; drawn := drawn w |}.
Definition with_drawn (w : world) (n : nat) : world :=
  {| heap := heap w; stdout := stdout w; drawn := n |}.

(** Between the states [w] and [w'] nothing has changed in the caller's
    objects but, at most, the fields [keys] of the object [obj]. *)
Definition writes_only (keys : list string) (obj : loc) (w w' : world) : Prop :=
  (forall other, other <> obj -> heap w' !! other = heap w !! other) /\
  match heap w !! obj, heap w' !! obj with
  | Some d, Some d' => forall field, ~ In field keys -> d' !! field = d !! field
  | None, None => True
  | _, _ => False
  end.

(** [m] leaves the component [part] of the state as it found it. *)
Definition preserves {A X : Type} (part : world -> X) (m : M A) : Prop :=
  forall w, part (snd (m w)) = part w.

(** ** Test vectors and stand-ins for the collaborators *)

Module Vectors.

(** Sixteen zero bytes. *)
Definition zero_seed : string := big_endian 16 0 EmptyString.
Definition zero_private_gen : Z :=
  0xD296B892B3A7964BD0CC882FC7C0BE948B6BBD8EB1EFF8C13942FCAABF1F3877.
Definition zero_secret_candidate : Z :=
  0x527C034D280FDEC4B76EF59CF731B2229D2DE80E48200A01C40503A0F7408F2F.
Definition zero_public_gen : point :=
  Point 0xF400467FA7FC3C1432BFEB8EDE23299AF25CDCF5DE76E9CB05BF6C567F4B09D8
        0xFBAD3E1708608709C8BDF1DA5660CCA32BAC369B7FD23F7FD88FD87E70D1ED52.

(** The vector of [test_wiki_test_vector]: the secret, the seed it decodes
    to and the private generator of that seed. *)
Definition wiki_secret : string := "shHM53KPZ87Gwdqarm1bAmPeXg8Tn".
Definition wiki_seed : string :=
  big_endian 16 0x71ED064155FFADFA38782C5E0158CB26 EmptyString.
Definition wiki_private_gen : Z :=
  0x7CFBA64F771E93E817E15039215430B53F7401C34931D111EAB3510B22DBB0D8.
Definition wiki_key : SigningKey :=
  {| secret_multiplier :=
       0xA5EF877564D096EA445E72FDA77C77BB45002261087C69D57CEA56B008102D52;
     public_point :=
       Point 0xFA25B68DA6FF6832E4462FDFB9A2AAA58888C0ED17285FFE92E4465E0C6E782A
             0x5163BFA112B7B679A96DA29661642411893D1E55DBDF0E30974D2B302294A8B5;
     private_gen := wiki_private_gen;
     public_gen :=
       Point 0x88E5BA87A000CB807240DF8C848EB0B5FFA5C8E5A521BC8E105C0F0A44217828
             0x6060068459114D8BCE74A04B81FAFCEA876A48662288335943CCC3FEAB81C34B |}.

(** A decoder that knows the secret of the test vector only. *)
Definition decode (secret : string) : result string :=
  if String.eqb secret wiki_secret then Ok wiki_seed
  else Raise (OtherError "unknown secret").

(** A serializer that writes the public-key field and nothing else, and
    refuses a transaction without it. *)
Definition serialize (d : gmap string pyvalue) : result string :=
  match d !! "SigningPubKey" with
  | Some (PyStr pubkey) => Ok pubkey
  | _ => Raise (OtherError "SigningPubKey missing")
  end.

(** Stand-ins for the address encoder, the two hash functions of the
    address derivation and the signing primitive: they are only applied,
    never looked into.  The two digests keep the first bytes of the
    message; the signature of a number is the number itself and the
    nonce. *)
Definition encode (payload : string) : result string := Ok (fmt_hex payload).
Definition sha256 (msg : string) : string := slice_to 32 msg.
Definition ripemd160 (msg : string) : string := slice_to 20 msg.
Definition nonce (n : nat) : Z := Z.of_nat (S n).
Definition sign (secexp number k : Z) : result (Z * Z) := Ok (number, k).
Definition der (r s : Z) : string := big_endian 64 r (big_endian 32 s EmptyString).

(** A digest function of 64 bytes whose first half is the order of the
    curve when the message ends with a zero byte, and the number 1
    otherwise. *)
Fixpoint last_byte (msg : string) : Z :=
  match msg with
  | EmptyString => 0
  | String c EmptyString => ord c
  | String _ rest => last_byte rest
  end.

Definition order_digest (msg : string) : string :=
  big_endian 32 (if last_byte msg =? 0 then SECP256k1.order else 1)
    (big_endian 32 0 EmptyString).

(** A state with one empty transaction. *)
Definition transaction : loc := 1%positive.
Definition w0 : world :=
  {| heap := {[transaction := ∅]}; stdout := EmptyString; drawn := O |}.

(** The run of [signature_for_transaction] on that transaction with the
    secret of the test vector and the stand-ins: the compressed public
    key, the text that [create_signing_hash] returns, the signature and
    the state at the end. *)
Definition wiki_pubkey : string :=
  String (chr 3)
    (big_endian 32 0xFA25B68DA6FF6832E4462FDFB9A2AAA58888C0ED17285FFE92E4465E0C6E782A
       EmptyString).
Definition wiki_signing_hash : string :=
  "AEF5AB169CFD8D0F281F030C8F6177348E416C35446FC4AE45EAF4463D599A90".
Definition wiki_signature : string :=
  fmt_hex (der (from_bytes wiki_signing_hash) (nonce 0)).
Definition wiki_signed : world :=
  {| heap := {[transaction := {["SigningPubKey" := PyStr (fmt_hex wiki_pubkey)]}]};
     stdout := EmptyString; drawn := 1%nat |}.

End Vectors.

(** ** Messages in parts, texts of digits and collaborators that refuse *)

(** The bytes that a [hashlib] object has been fed once it has been
    updated with each of [parts] in turn. *)
Definition concatenation (parts : list string) : string :=
  fold_right String.append EmptyString parts.


(** One of the characters [0-9A-F]. *)
Definition upper_hex_char (c : ascii) : bool :=
  ((48 <=? ord c) && (ord c <=? 57)) || ((65 <=? ord c) && (ord c <=? 70)).

Fixpoint all_chars (test : ascii -> bool) (s : string) : bool :=
  match s with
  | EmptyString => true
  | String c s' => test c && all_chars test s'
  end.

Module Refusals.

(** A decoder that gives sixteen zero bytes for every secret, and the
    unpadded compressed public generator of that seed. *)
Definition zero_decode (secret : string) : result string := Ok Vectors.zero_seed.
Definition zero_public_gen_compressed : string :=
  String (chr 2)
    (big_endian 32 0xF400467FA7FC3C1432BFEB8EDE23299AF25CDCF5DE76E9CB05BF6C567F4B09D8
       EmptyString).

(** A serializer and a signing primitive that refuse whatever they are
    given. *)
Definition serialize (d : gmap string pyvalue) : result string :=
  Raise (OtherError "unknown field").
Definition sign (secexp number k : Z) : result (Z * Z) :=
  Raise (OtherError "unlucky random number").

(** A state with a second object, text on standard output and the same
    transaction as [Vectors.w0]. *)
Definition w1 : world :=
  {| heap := <[2%positive := {["Flags" := PyInt 0]}]> (heap Vectors.w0);
     stdout := "log"; drawn := O |}.

(** The state of [Vectors.w0] once the public key of the test vector has
    been written, and once a nonce has been drawn after that. *)
Definition wiki_written : world :=
  with_heap Vectors.w0
    (<[Vectors.transaction :=
         <["SigningPubKey" := PyStr (fmt_hex Vectors.wiki_pubkey)]> ∅]> (heap Vectors.w0)).
Definition wiki_drawn : world :=
  {| heap := heap wiki_written; stdout := stdout Vectors.w0;
     drawn := S (drawn Vectors.w0) |}.

End Refusals.

(** A payment that has not been signed and the state that holds it; the
    fields and the state once [signature_for_transaction] has run on it
    with the secret of the test vector and the stand-ins of [Vectors], and
    once [sign_transaction] has. *)
Module Payment.

Definition unsigned : gmap string pyvalue :=
  {[ "TransactionType" := PyStr "Payment";
     "Account" := PyStr "rhcfR9Cg98qCxHpCcPBmMonbDBXo84wyTn";
     "Amount" := PyInt 1000000;
     "Sequence" := PyInt 1 ]}.
Definition w : world :=
  {| heap := {[Vectors.transaction := unsigned]}; stdout := EmptyString; drawn := O |}.

Definition keyed : gmap string pyvalue :=
  <["SigningPubKey" := PyStr (fmt_hex Vectors.wiki_pubkey)]> unsigned.
Definition w_keyed : world :=
  {| heap := {[Vectors.transaction := keyed]}; stdout := EmptyString; drawn := 1%nat |}.

Definition signed : gmap string pyvalue :=
  <["TxnSignature" := PyStr Vectors.wiki_signature]> keyed.
Definition w_signed : world :=
  {| heap := {[Vectors.transaction := signed]}; stdout := EmptyString; drawn := 1%nat |}.

End Payment.

(** * Properties *)

(** ** Characters and strings *)

Lemma ord_range (c : ascii) : 0 <= ord c < 256.
Proof.
  unfold ord. pose proof (N_ascii_bounded c). lia.
Qed.

Lemma ord_chr (z : Z) : 0 <= z < 256 -> ord (chr z) = z.
Proof.
  intros Hz. unfold ord, chr.
  rewrite N_ascii_embedding by lia. lia.
Qed.

Lemma upper_hex_digit_char (c : ascii) :
  upper_char (hex_digit (ord c / 16)) = upper_hex_digit (ord c / 16) /\
  upper_char (hex_digit (ord c mod 16)) = upper_hex_digit (ord c mod 16).
Proof.
  destruct c as [[] [] [] [] [] [] [] []]; vm_compute; split; reflexivity.
Qed.

Lemma upper_hex_encode (s : string) : upper (hex_encode s) = fmt_hex s.
Proof.
  induction s as [|c s IH]; simpl; [reflexivity|].
  destruct (upper_hex_digit_char c) as [-> ->]. now rewrite IH.
Qed.

Lemma length_fmt_hex (s : string) : String.length (fmt_hex s) = (2 * String.length s)%nat.
Proof.
  induction s as [|c s IH]; simpl; [reflexivity|]. rewrite IH. lia.
Qed.

Lemma upper_hex_digit_ord (c : ascii) : 48 <= ord (upper_hex_digit (ord c / 16)).
Proof.
  destruct c as [[] [] [] [] [] [] [] []]; vm_compute; discriminate.
Qed.

(** ** The primitive codec *)

Lemma from_bytes_acc_spec (s : string) (acc : Z) :
  from_bytes_acc acc s = acc * 256 ^ Z.of_nat (String.length s) + from_bytes s.
Proof.
  unfold from_bytes. revert acc.
  induction s as [|c s IH]; intros acc; simpl String.length; simpl from_bytes_acc.
  - change (256 ^ Z.of_nat 0) with 1. lia.
  - rewrite (IH (acc * 256 + ord c)), (IH (0 * 256 + ord c)).
    rewrite Nat2Z.inj_succ, Z.pow_succ_r by lia. ring.
Qed.

Lemma from_bytes_String (c : ascii) (s : string) :
  from_bytes (String c s) = ord c * 256 ^ Z.of_nat (String.length s) + from_bytes s.
Proof.
  unfold from_bytes at 1. simpl. rewrite from_bytes_acc_spec. ring.
Qed.

Lemma from_bytes_range (s : string) :
  0 <= from_bytes s < 256 ^ Z.of_nat (String.length s).
Proof.
  induction s as [|c s IH].
  - unfold from_bytes. simpl. lia.
  - rewrite from_bytes_String. simpl String.length.
    rewrite Nat2Z.inj_succ, Z.pow_succ_r by lia.
    pose proof (ord_range c).
    assert (0 < 256 ^ Z.of_nat (String.length s)) by (apply Z.pow_pos_nonneg; lia).
    nia.
Qed.

Lemma length_big_endian (width : nat) (value : Z) (tail : string) :
  String.length (big_endian width value tail) = (width + String.length tail)%nat.
Proof.
  revert value tail. induction width as [|w IH]; intros value tail; simpl; [reflexivity|].
  rewrite IH. simpl. lia.
Qed.

Lemma from_bytes_big_endian (width : nat) (value : Z) (tail : string) :
  from_bytes (big_endian width value tail) =
  (value mod 256 ^ Z.of_nat width) * 256 ^ Z.of_nat (String.length tail) + from_bytes tail.
Proof.
  revert value tail. induction width as [|w IH]; intros value tail.
  - simpl. change (256 ^ Z.of_nat 0) with 1. rewrite Z.mod_1_r. lia.
  - simpl big_endian. rewrite IH, from_bytes_String.
    rewrite ord_chr by (apply Z.mod_pos_bound; lia).
    simpl String.length. rewrite !Nat2Z.inj_succ, !Z.pow_succ_r by lia.
    assert (Hpos : 0 < 256 ^ Z.of_nat w) by (apply Z.pow_pos_nonneg; lia).
    rewrite (Z.rem_mul_r value 256 (256 ^ Z.of_nat w)) by lia.
    ring.
Qed.

Lemma to_bytes_fixed (value width : Z) :
  0 <= width -> 0 <= value < 256 ^ width ->
  exists bytes, to_bytes value (Some width) = Ok bytes /\
    String.length bytes = Z.to_nat width /\ from_bytes bytes = value.
Proof.
  intros Hw Hv. unfold to_bytes.
  destruct (value <? 0) eqn:Hneg; [lia|].
  destruct (value <? 256 ^ width) eqn:Hfit; [|lia].
  eexists. split; [reflexivity|]. split.
  - rewrite length_big_endian. simpl. lia.
  - rewrite from_bytes_big_endian. simpl String.length.
    rewrite Z2Nat.id by lia. change (256 ^ Z.of_nat 0) with 1.
    rewrite Z.mod_small by lia. unfold from_bytes. simpl. lia.
Qed.

Lemma byte_length_fits (value : Z) :
  0 <= value -> value < 256 ^ Z.of_nat (byte_length value).
Proof.
  intros Hv. unfold byte_length.
  destruct (value =? 0) eqn:Hz.
  - apply Z.eqb_eq in Hz. subst. simpl. lia.
  - apply Z.eqb_neq in Hz.
    assert (Hpos : 0 < value) by lia.
    pose proof (Z.log2_nonneg value).
    pose proof (Z.log2_spec value Hpos) as [_ Hup].
    rewrite Z2Nat.id by (pose proof (Z.div_pos (Z.log2 value) 8); lia).
    change 256 with (2 ^ 8). rewrite <- Z.pow_mul_r by
      (pose proof (Z.div_pos (Z.log2 value) 8); lia).
    eapply Z.lt_le_trans; [exact Hup|].
    apply Z.pow_le_mono_r; [lia|].
    pose proof (Z.mod_pos_bound (Z.log2 value) 8).
    pose proof (Z.div_mod (Z.log2 value) 8). lia.
Qed.

Lemma byte_length_least (value : Z) (k : nat) :
  0 <= value < 256 ^ Z.of_nat k -> (byte_length value <= k)%nat.
Proof.
  intros [Hv Hk]. unfold byte_length.
  destruct (value =? 0) eqn:Hz; [lia|].
  apply Z.eqb_neq in Hz.
  assert (Hpos : 0 < value) by lia.
  change 256 with (2 ^ 8) in Hk. rewrite <- Z.pow_mul_r in Hk by lia.
  apply Z.log2_lt_pow2 in Hk; [|exact Hpos].
  pose proof (Z.log2_nonneg value).
  assert (Z.log2 value / 8 < Z.of_nat k) by (apply Z.div_lt_upper_bound; lia).
  pose proof (Z.div_pos (Z.log2 value) 8). lia.
Qed.

Lemma to_bytes_minimal (value : Z) :
  0 <= value ->
  exists bytes, to_bytes value None = Ok bytes /\ from_bytes bytes = value /\
    forall other, from_bytes other = value ->
      (String.length bytes <= String.length other)%nat.
Proof.
  intros Hv. unfold to_bytes.
  destruct (value <? 0) eqn:Hneg; [lia|].
  eexists. split; [reflexivity|]. split.
  - rewrite from_bytes_big_endian. simpl String.length.
    change (256 ^ Z.of_nat 0) with 1.
    rewrite Z.mod_small by (split; [lia | now apply byte_length_fits]).
    unfold from_bytes. simpl. lia.
  - intros other Hother. rewrite length_big_endian. simpl.
    rewrite Nat.add_0_r. apply byte_length_least.
    rewrite <- Hother. apply from_bytes_range.
Qed.

(** ** The two sampling loops of [root_key_from_seed] *)

Lemma to_bytes_counter (k : Z) :
  to_bytes k (Some 4) =
  if (0 <=? k) && (k <? 2 ^ 32) then Ok (counter_bytes k) else Raise ValueError.
Proof.
  unfold to_bytes, counter_bytes. change (256 ^ 4) with (2 ^ 32).
  destruct (k <? 0) eqn:Hneg, (k <? 2 ^ 32) eqn:Hfit;
    destruct (0 <=? k) eqn:Hpos; simpl; try reflexivity; lia.
Qed.

Lemma sampling_from (candidate : Z -> Z) (run : Z -> result Z) :
  (forall seq, run seq =
     if (0 <=? seq) && (seq <? 2 ^ 32)
     then if SECP256k1.order >=? candidate seq then Ok (candidate seq) else run (seq + 1)
     else Raise ValueError) ->
  forall seq, 0 <= seq <= 2 ^ 32 ->
    (forall j, 0 <= j < seq -> SECP256k1.order < candidate j) ->
    sampled candidate (run seq).
Proof.
  intros Hrun seq.
  induction (Zwf_up_well_founded (2 ^ 32) seq) as [seq _ IH].
  intros Hseq Hrejected. rewrite Hrun.
  destruct ((0 <=? seq) && (seq <? 2 ^ 32)) eqn:Hin.
  - destruct (SECP256k1.order >=? candidate seq) eqn:Htest.
    + exists seq. rewrite Z.geb_leb in Htest. apply Z.leb_le in Htest.
      repeat split; try lia. exact Hrejected.
    + rewrite Z.geb_leb in Htest. apply Z.leb_gt in Htest.
      apply IH; [unfold Zwf_up; lia | lia |].
      intros j Hj. destruct (Z.eq_dec j seq) as [-> | Hne]; [exact Htest|].
      apply Hrejected. lia.
  - split; [reflexivity|]. intros k Hk. apply Hrejected. lia.
Qed.

Lemma private_gen_loop_step (sha512 : string -> string) (seed : string) (seq : Z) :
  private_gen_loop sha512 seed seq =
  if (0 <=? seq) && (seq <? 2 ^ 32)
  then if SECP256k1.order >=? private_gen_candidate sha512 seed seq
       then Ok (private_gen_candidate sha512 seed seq)
       else private_gen_loop sha512 seed (seq + 1)
  else Raise ValueError.
Proof.
  rewrite private_gen_loop_equation_1.
  destruct (inspect (to_bytes seq (Some 4))) as [[counter | e] Hr];
    simp private_gen_loop; pose proof Hr as Hr'; rewrite to_bytes_counter in Hr';
    destruct ((0 <=? seq) && (seq <? 2 ^ 32)); try discriminate.
  - injection Hr' as <-. reflexivity.
  - injection Hr' as <-. reflexivity.
Qed.

Lemma secret_loop_step (sha512 : string -> string) (public_gen_compressed : string)
    (i : Z) :
  secret_loop sha512 public_gen_compressed i =
  if (0 <=? i) && (i <? 2 ^ 32)
  then if SECP256k1.order >=? secret_candidate sha512 public_gen_compressed i
       then Ok (secret_candidate sha512 public_gen_compressed i)
       else secret_loop sha512 public_gen_compressed (i + 1)
  else Raise ValueError.
Proof.
  rewrite secret_loop_equation_1.
  change (to_bytes 0 (Some 4)) with (Ok (A := string) (counter_bytes 0)).
  simp secret_loop.
  destruct (inspect (to_bytes i (Some 4))) as [[counter | e] Hr];
    simp secret_loop; pose proof Hr as Hr'; rewrite to_bytes_counter in Hr';
    destruct ((0 <=? i) && (i <? 2 ^ 32)); try discriminate.
  - injection Hr' as <-. reflexivity.
  - injection Hr' as <-. reflexivity.
Qed.


(** ** Computations without effect *)

Lemma effect_free_lift {A : Type} (r : result A) : effect_free (lift r).
Proof. exists r. reflexivity. Qed.

Lemma effect_free_ret {A : Type} (a : A) : effect_free (mret a : M A).
Proof. exists (Ok a). reflexivity. Qed.

Lemma effect_free_bind {A B : Type} (m : M A) (f : A -> M B) :
  effect_free m -> (forall a, effect_free (f a)) -> effect_free (m ≫= f).
Proof.
  intros [[a | e] Hm] Hf.
  - destruct (Hf a) as [r Hr]. exists r. intros w.
    unfold mbind, M_bind. now rewrite Hm, Hr.
  - exists (Raise e). intros w. unfold mbind, M_bind. now rewrite Hm.
Qed.

Create HintDb effect_free.
#[local] Hint Resolve effect_free_lift effect_free_ret : effect_free.

Section SignProperties.

Variable sha512 : string -> string.
Variable sha256 : string -> string.
Variable ripemd160 : string -> string.
Variable generator_mul : Z -> point.
Variable RippleBaseDecoder_decode : string -> result string.
Variable RippleBaseDecoder_encode : string -> result string.
Variable serialize_object : gmap string pyvalue -> result string.
Variable randrange : nat -> Z.
Variable Private_key_sign : Z -> Z -> Z -> result (Z * Z).
Variable sigencode_der : Z -> Z -> string.

Lemma parse_seed_effect_free (secret : string) :
  effect_free (parse_seed RippleBaseDecoder_decode secret).
Proof.
  unfold parse_seed. destruct secret as [|c rest]; [auto with effect_free|].
  destruct (Ascii.eqb c "s"); auto with effect_free.
Qed.

Lemma root_key_from_seed_effect_free (seed : string) :
  effect_free (root_key_from_seed sha512 generator_mul seed).
Proof.
  unfold root_key_from_seed.
  apply effect_free_bind; [auto with effect_free|]. intros [[pg pub] secret].
  apply effect_free_bind; [auto with effect_free|]. intros [secexp pubkey_point].
  auto with effect_free.
Qed.

(** C10: two calls of [root_key_from_seed] on the same seed, in whatever
    states they are made, yield the same result (the same private scalar,
    public point, private and public generator, or the same exception),
    and a call leaves the state as it found it: the derivation is a
    function of the seed bytes alone. *)
Theorem root_key_from_seed_deterministic (seed : string) (w1 w2 : world) :
  fst (root_key_from_seed sha512 generator_mul seed w1) =
  fst (root_key_from_seed sha512 generator_mul seed w2) /\
  snd (root_key_from_seed sha512 generator_mul seed w1) = w1 /\
  (key1 ← root_key_from_seed sha512 generator_mul seed;
   key2 ← root_key_from_seed sha512 generator_mul seed;
   mret (key1, key2)) w1 =
  (key ← fst (root_key_from_seed sha512 generator_mul seed w1); Ok (key, key), w1).
Proof.
  destruct (root_key_from_seed_effect_free seed) as [r Hr].
  unfold mbind at 1 2, M_bind. rewrite !Hr. simpl.
  repeat split. destruct r as [key | e]; reflexivity.
Qed.

(** *** The signing hash *)

Lemma first_half_of_sha512_two (a b : string) :
  first_half_of_sha512 sha512 [a; b] = slice_to 32 (sha512 (a +:+ b)).
Proof. reflexivity. Qed.

(** C4: [create_signing_hash] returns the upper-case hexadecimal text of
    the first 32 bytes of the SHA-512 digest of the network prefix, as 4
    big-endian bytes, followed by the bytes that the serializer gives for
    the transaction; the prefix is [0x53545800], and [0x73747800] when
    the testnet flag is set. *)
Theorem create_signing_hash_spec (transaction : loc) (testnet : bool) (w : world)
    (d : gmap string pyvalue) (serialized : string) :
  heap w !! transaction = Some d ->
  serialize_object d = Ok serialized ->
  exists prefix_bytes,
    String.length prefix_bytes = 4%nat /\
    from_bytes prefix_bytes = (if testnet then 0x73747800 else 0x53545800) /\
    create_signing_hash sha512 serialize_object transaction testnet w =
    (Ok (fmt_hex (slice_to 32 (sha512 (prefix_bytes +:+ serialized)))), w).
Proof.
  intros Hd Hser.
  destruct (to_bytes_fixed (if testnet then HASH_TX_SIGN_TESTNET else HASH_TX_SIGN) 4)
    as (prefix_bytes & Hprefix & Hlen & Hval).
  { lia. }
  { destruct testnet; vm_compute; (split; [discriminate | reflexivity]). }
  exists prefix_bytes. split; [exact Hlen|]. split.
  { rewrite Hval. destruct testnet; reflexivity. }
  unfold create_signing_hash, mbind, M_bind, lift, fields.
  rewrite Hprefix, Hd, Hser. unfold mret, M_ret.
  now rewrite first_half_of_sha512_two, upper_hex_encode.
Qed.

(** *** Point compression *)

(** C5: for a point [(x, y)] of the curve, [ecc_point_to_bytes_compressed]
    returns one header byte, [0x02] when [y] is even and [0x03] when it
    is odd, followed by the big-endian bytes of [x]; with [pad] the
    result has exactly 33 bytes, and without it no byte string that
    encodes [x] is shorter than the one that follows the header. *)
Theorem ecc_point_to_bytes_compressed_spec (x y : Z) :
  SECP256k1.on_curve x y ->
  let header := if Z.even y then chr 2 else chr 3 in
  (exists bytes,
      ecc_point_to_bytes_compressed (Point x y) true = Ok (String header bytes) /\
      from_bytes bytes = x /\
      String.length (String header bytes) = 33%nat) /\
  (exists bytes,
      ecc_point_to_bytes_compressed (Point x y) false = Ok (String header bytes) /\
      from_bytes bytes = x /\
      forall other, from_bytes other = x ->
        (String.length bytes <= String.length other)%nat).
Proof.
  intros (Hx & Hy & _) header.
  assert (Hheader : (if y mod 2 =? 0 then String (chr 2) EmptyString
                     else String (chr 3) EmptyString) = String header EmptyString).
  { subst header. rewrite Zmod_even. now destruct (Z.even y). }
  unfold ecc_point_to_bytes_compressed. rewrite Hheader. split.
  - change (bit_length SECP256k1.order / 8) with 32.
    destruct (to_bytes_fixed x 32) as (bytes & -> & Hlen & Hval).
    { lia. }
    { unfold SECP256k1.p in Hx. lia. }
    exists bytes. split; [reflexivity|]. split; [exact Hval|].
    simpl. rewrite Hlen. reflexivity.
  - destruct (to_bytes_minimal x) as (bytes & -> & Hval & Hmin); [lia|].
    exists bytes. split; [reflexivity|]. split; [exact Hval | exact Hmin].
Qed.

(** *** Address derivation *)

(** C6: deriving the address from a secret is deriving it from the
    padded compressed public key of the root key of the parsed secret:
    same result and same effect. *)
Theorem get_ripple_from_secret_roundtrip (secret seed pubkey : string) (key : SigningKey)
    (w w1 w2 : world) :
  parse_seed RippleBaseDecoder_decode secret w = (Ok seed, w1) ->
  root_key_from_seed sha512 generator_mul seed w1 = (Ok key, w2) ->
  ecc_point_to_bytes_compressed (public_point key) true = Ok pubkey ->
  get_ripple_from_secret sha512 sha256 ripemd160 generator_mul
    RippleBaseDecoder_decode RippleBaseDecoder_encode secret w =
  get_ripple_from_pubkey sha256 ripemd160 RippleBaseDecoder_encode pubkey w2.
Proof.
  intros Hparse Hkey Hpub.
  unfold get_ripple_from_secret, mbind at 1 2 3, M_bind, lift.
  now rewrite Hparse, Hkey, Hpub.
Qed.

(** ** Digests and their hexadecimal text *)

Lemma length_slice_to_exact (n : nat) (s : string) :
  (n <= String.length s)%nat -> String.length (slice_to n s) = n.
Proof.
  revert s. induction n as [|n IH]; intros [|c s]; simpl; try lia.
  intros Hn. rewrite IH; lia.
Qed.

Lemma from_bytes_fmt_hex_lower (s : string) :
  s <> EmptyString -> 256 ^ Z.of_nat (String.length s) <= from_bytes (fmt_hex s).
Proof.
  destruct s as [|c s]; [congruence|]. intros _.
  change (fmt_hex (String c s)) with
    (String (upper_hex_digit (ord c / 16))
       (String (upper_hex_digit (ord c mod 16)) (fmt_hex s))).
  rewrite from_bytes_String.
  pose proof (upper_hex_digit_ord c) as Hdigit.
  pose proof (from_bytes_range
                (String (upper_hex_digit (ord c mod 16)) (fmt_hex s))) as [Hrest _].
  change (String.length (String (upper_hex_digit (ord c mod 16)) (fmt_hex s)))
    with (S (String.length (fmt_hex s))).
  change (String.length (String c s)) with (S (String.length s)).
  rewrite length_fmt_hex.
  set (L := String.length s).
  replace (Z.of_nat (S (2 * L))) with (Z.of_nat (S L) + Z.of_nat L) by lia.
  rewrite Z.pow_add_r by lia.
  assert (Ha : 0 < 256 ^ Z.of_nat (S L)) by (apply Z.pow_pos_nonneg; lia).
  assert (Hb : 0 < 256 ^ Z.of_nat L) by (apply Z.pow_pos_nonneg; lia).
  revert Ha Hb Hrest Hdigit.
  generalize (256 ^ Z.of_nat (S L)) (256 ^ Z.of_nat L)
    (ord (upper_hex_digit (ord c / 16)))
    (from_bytes (String (upper_hex_digit (ord c mod 16)) (fmt_hex s))).
  intros a b digit rest Ha Hb Hrest Hdigit.
  assert (a * 1 <= a * b) by (apply Z.mul_le_mono_nonneg_l; lia).
  assert (1 * (a * b) <= digit * (a * b)) by (apply Z.mul_le_mono_nonneg_r; nia).
  lia.
Qed.

Lemma SHA512_digest_length (msg : string) : String.length (SHA512.digest msg) = 64%nat.
Proof.
  unfold SHA512.digest.
  destruct (SHA512.blocks _ _ _) as [[[[[[[a b] c] d] e] f] g] h].
  cbn [fold_right]. rewrite !length_big_endian. reflexivity.
Qed.

(** The digest that is to be signed has 32 bytes; the number that its
    hexadecimal text decodes to is not the number that it decodes to. *)
Lemma hex_text_is_not_the_digest (serialized : string) :
  (forall msg, String.length (sha512 msg) = 64%nat) ->
  from_bytes (signing_digest sha512 serialized) < 2 ^ 256
  <= from_bytes (fmt_hex (signing_digest sha512 serialized)).
Proof.
  intros Hlen.
  assert (Hdigest : String.length (signing_digest sha512 serialized) = 32%nat).
  { unfold signing_digest, first_half_of_sha512.
    apply length_slice_to_exact. rewrite Hlen. vm_compute. lia. }
  split.
  - pose proof (from_bytes_range (signing_digest sha512 serialized)) as [_ Hlt].
    rewrite Hdigest in Hlt. exact Hlt.
  - pose proof (from_bytes_fmt_hex_lower (signing_digest sha512 serialized)) as Hge.
    rewrite Hdigest in Hge. apply Hge.
    intros Hempty. rewrite Hempty in Hdigest. discriminate.
Qed.

(** ** What a computation leaves in place *)

Lemma preserves_bind {A B X : Type} (part : world -> X) (m : M A) (f : A -> M B) :
  preserves part m -> (forall a, preserves part (f a)) -> preserves part (m ≫= f).
Proof.
  intros Hm Hf w. unfold mbind, M_bind. specialize (Hm w).
  destruct (m w) as [[a | e] w1]; simpl in *; [|exact Hm].
  rewrite Hf. exact Hm.
Qed.

Lemma effect_free_preserves {A X : Type} (part : world -> X) (m : M A) :
  effect_free m -> preserves part m.
Proof. intros [r Hr] w. now rewrite Hr. Qed.

Lemma preserves_ret {A X : Type} (part : world -> X) (a : A) :
  preserves part (mret a : M A).
Proof. intros w. reflexivity. Qed.

Lemma preserves_lift {A X : Type} (part : world -> X) (r : result A) :
  preserves part (lift r).
Proof. intros w. reflexivity. Qed.

Lemma setitem_preserves_stdout (obj : loc) (key : string) (value : pyvalue) :
  preserves stdout (setitem obj key value).
Proof. intros w. unfold setitem. now destruct (heap w !! obj). Qed.

(** ** Signing a transaction *)

Lemma create_signing_hash_run (transaction : loc) (testnet : bool) (w : world)
    (d : gmap string pyvalue) :
  heap w !! transaction = Some d ->
  create_signing_hash sha512 serialize_object transaction testnet w =
  (serialized ← serialize_object d;
   Ok (fmt_hex (first_half_of_sha512 sha512
                  [big_endian 4 (if testnet then HASH_TX_SIGN_TESTNET else HASH_TX_SIGN)
                     EmptyString; serialized])), w).
Proof.
  intros Hd. unfold create_signing_hash, mbind at 1 2 3, M_bind, lift, fields.
  rewrite Hd.
  replace (to_bytes (if testnet then HASH_TX_SIGN_TESTNET else HASH_TX_SIGN) (Some 4))
    with (Ok (A := string)
            (big_endian 4 (if testnet then HASH_TX_SIGN_TESTNET else HASH_TX_SIGN)
               EmptyString)) by (now destruct testnet).
  destruct (serialize_object d) as [serialized | e]; [|reflexivity].
  unfold mret, M_ret. now rewrite upper_hex_encode.
Qed.

Lemma create_signing_hash_unchanged (transaction : loc) (testnet : bool) (w : world) :
  snd (create_signing_hash sha512 serialize_object transaction testnet w) = w.
Proof.
  destruct (heap w !! transaction) as [d|] eqn:Hd.
  - now rewrite (create_signing_hash_run _ _ _ _ Hd).
  - unfold create_signing_hash, mbind at 1 2 3, M_bind, lift, fields. rewrite Hd.
    now destruct (to_bytes _ _).
Qed.

(** The runs of [signature_for_transaction]: it raises before it has
    written anything, or it has written the public key and then raises in
    the serializer or in the signing primitive, or it returns. *)
Lemma signature_for_transaction_run (transaction : loc) (secret : string) (w : world)
    (d : gmap string pyvalue) :
  heap w !! transaction = Some d ->
  let (r, w') := signature_for_transaction sha512 generator_mul RippleBaseDecoder_decode
                   serialize_object randrange Private_key_sign sigencode_der
                   transaction secret w in
  (exists e, r = Raise e /\ w' = w) \/
  exists seed key pubkey,
    parse_seed RippleBaseDecoder_decode secret w = (Ok seed, w) /\
    root_key_from_seed sha512 generator_mul seed w = (Ok key, w) /\
    ecc_point_to_bytes_compressed (public_point key) true = Ok pubkey /\
    let d' := <["SigningPubKey" := PyStr (fmt_hex pubkey)]> d in
    let w_mid := with_heap w (<[transaction := d']> (heap w)) in
    (exists e, r = Raise e /\ (w' = w_mid \/ w' = with_drawn w_mid (S (drawn w)))) \/
    exists serialized sig_r sig_s,
      serialize_object d' = Ok serialized /\
      Private_key_sign (secret_multiplier key)
        (from_bytes (fmt_hex (signing_digest sha512 serialized)))
        (randrange (drawn w)) = Ok (sig_r, sig_s) /\
      r = Ok (fmt_hex (sigencode_der sig_r sig_s)) /\
      w' = with_drawn w_mid (S (drawn w)).
Proof.
  intros Hd. unfold signature_for_transaction.
  destruct (parse_seed_effect_free secret) as [rp Hp].
  unfold mbind at 1, M_bind. rewrite Hp.
  destruct rp as [seed | e]; [|left; eauto].
  destruct (root_key_from_seed_effect_free seed) as [rk Hk].
  unfold mbind at 1. rewrite Hk.
  destruct rk as [key | e]; [|left; eauto].
  unfold mbind at 1, lift at 1.
  destruct (ecc_point_to_bytes_compressed (public_point key) true) as [pubkey | e] eqn:Hpub;
    [|left; eauto].
  unfold mbind at 1, setitem at 1. rewrite Hd.
  set (d' := <["SigningPubKey" := PyStr (fmt_hex pubkey)]> d).
  set (w_mid := {| heap := <[transaction := d']> (heap w);
                   stdout := stdout w; drawn := drawn w |}).
  assert (Hmid : heap w_mid !! transaction = Some d') by apply lookup_insert_eq.
  unfold mbind at 1. rewrite (create_signing_hash_run _ _ _ _ Hmid).
  destruct (serialize_object d') as [serialized | e] eqn:Hser; simpl.
  2: { right. exists seed, key, pubkey. repeat (split; [auto|]).
       left. exists e. auto. }
  unfold mbind at 1, ecdsa_sign, mbind at 1, sign_number, M_bind. simpl.
  destruct (Private_key_sign _ _ _) as [[sig_r sig_s] | e] eqn:Hsign; simpl.
  2: { right. exists seed, key, pubkey. repeat (split; [auto|]).
       left. exists e. split; [reflexivity|]. right. reflexivity. }
  right. exists seed, key, pubkey. repeat (split; [auto|]).
  right. exists serialized, sig_r, sig_s. repeat split; auto.
Qed.

(** Without a transaction object there is nothing to sign. *)
Lemma signature_for_transaction_no_object (transaction : loc) (secret : string)
    (w : world) :
  heap w !! transaction = None ->
  exists e,
    signature_for_transaction sha512 generator_mul RippleBaseDecoder_decode
      serialize_object randrange Private_key_sign sigencode_der
      transaction secret w = (Raise e, w).
Proof.
  intros Hd. unfold signature_for_transaction.
  destruct (parse_seed_effect_free secret) as [rp Hp].
  unfold mbind at 1, M_bind. rewrite Hp.
  destruct rp as [seed | e]; [|eauto].
  destruct (root_key_from_seed_effect_free seed) as [rk Hk].
  unfold mbind at 1. rewrite Hk.
  destruct rk as [key | e]; [|eauto].
  unfold mbind at 1, lift at 1.
  destruct (ecc_point_to_bytes_compressed (public_point key) true) as [pubkey | e];
    [|eauto].
  unfold mbind at 1, setitem at 1. rewrite Hd. eauto.
Qed.

Lemma signature_for_transaction_frame (transaction : loc) (secret : string) (w : world)
    (d : gmap string pyvalue) :
  heap w !! transaction = Some d ->
  let (r, w') := signature_for_transaction sha512 generator_mul RippleBaseDecoder_decode
                   serialize_object randrange Private_key_sign sigencode_der
                   transaction secret w in
  exists d',
    heap w' = <[transaction := d']> (heap w) /\
    (forall field, field <> "SigningPubKey" -> d' !! field = d !! field) /\
    forall sig, r = Ok sig ->
      exists seed key pubkey serialized sig_r sig_s,
        parse_seed RippleBaseDecoder_decode secret w = (Ok seed, w) /\
        root_key_from_seed sha512 generator_mul seed w = (Ok key, w) /\
        ecc_point_to_bytes_compressed (public_point key) true = Ok pubkey /\
        d' = <["SigningPubKey" := PyStr (fmt_hex pubkey)]> d /\
        serialize_object d' = Ok serialized /\
        Private_key_sign (secret_multiplier key)
          (from_bytes (fmt_hex (signing_digest sha512 serialized)))
          (randrange (drawn w)) = Ok (sig_r, sig_s) /\
        sig = fmt_hex (sigencode_der sig_r sig_s).
Proof.
  intros Hd.
  pose proof (signature_for_transaction_run transaction secret w d Hd) as Hrun.
  destruct (signature_for_transaction _ _ _ _ _ _ _ _ _ _) as [r w'].
  destruct Hrun as [(e & -> & ->) | (seed & key & pubkey & Hp & Hk & Hpub & Hrun)].
  - exists d. split; [now rewrite insert_id|]. split; [reflexivity|]. discriminate.
  - exists (<["SigningPubKey" := PyStr (fmt_hex pubkey)]> d).
    split; [|split].
    + destruct Hrun as [(e & _ & [-> | ->]) | (? & ? & ? & _ & _ & _ & ->)]; reflexivity.
    + intros field Hfield. now apply lookup_insert_ne.
    + intros sig ->.
      destruct Hrun as [(e & He & _) | (serialized & sig_r & sig_s & Hser & Hsign & Hr & _)];
        [discriminate|].
      injection Hr as ->.
      exists seed, key, pubkey, serialized, sig_r, sig_s. auto 10.
Qed.

(** A run of [signature_for_transaction] in which the key is derived: the
    public key is written, then the transaction is serialized and the
    hash is signed. *)
Lemma signature_for_transaction_written (transaction : loc) (secret seed pubkey : string)
    (key : SigningKey) (w : world) (d : gmap string pyvalue) :
  heap w !! transaction = Some d ->
  parse_seed RippleBaseDecoder_decode secret w = (Ok seed, w) ->
  root_key_from_seed sha512 generator_mul seed w = (Ok key, w) ->
  ecc_point_to_bytes_compressed (public_point key) true = Ok pubkey ->
  let d' := <["SigningPubKey" := PyStr (fmt_hex pubkey)]> d in
  let w_mid := with_heap w (<[transaction := d']> (heap w)) in
  signature_for_transaction sha512 generator_mul RippleBaseDecoder_decode
    serialize_object randrange Private_key_sign sigencode_der
    transaction secret w =
  match serialize_object d' with
  | Raise e => (Raise e, w_mid)
  | Ok serialized =>
      match Private_key_sign (secret_multiplier key)
              (from_bytes (fmt_hex (signing_digest sha512 serialized)))
              (randrange (drawn w)) with
      | Raise e => (Raise e, with_drawn w_mid (S (drawn w)))
      | Ok (sig_r, sig_s) =>
          (Ok (fmt_hex (sigencode_der sig_r sig_s)), with_drawn w_mid (S (drawn w)))
      end
  end.
Proof.
  intros Hd Hparse Hkey Hpub d' w_mid.
  unfold signature_for_transaction, mbind at 1 2 3 4, M_bind, lift, setitem.
  rewrite Hparse, Hkey, Hpub, Hd.
  unfold mbind at 1.
  rewrite (create_signing_hash_run transaction false _ d') by apply lookup_insert_eq.
  fold d'. destruct (serialize_object d') as [serialized | e]; [|reflexivity]. simpl.
  unfold mbind at 1, ecdsa_sign, mbind at 1, sign_number, M_bind. simpl.
  destruct (Private_key_sign _ _ _) as [[sig_r sig_s] | e]; reflexivity.
Qed.

(** C7: in every run, [signature_for_transaction] changes nothing in the
    caller's objects but the [SigningPubKey] field of the transaction, and
    [sign_transaction] nothing but that field and [TxnSignature].  Once
    the key of the secret is derived, [signature_for_transaction] writes
    the public key into [SigningPubKey], whatever happens afterwards, and
    it is the fields with that key in place that the serializer is handed
    for the signing hash; [TxnSignature] is left as it was.
    [sign_transaction] then sets [TxnSignature] to the signature that
    [signature_for_transaction] returns and returns the transaction object
    it was given; when [signature_for_transaction] raises, it raises the
    same exception and writes no signature. *)
Theorem signing_writes_only_its_fields (transaction : loc) (secret : string) (w : world)
    (d : gmap string pyvalue) :
  heap w !! transaction = Some d ->
  let sig_run :=
    signature_for_transaction sha512 generator_mul RippleBaseDecoder_decode
      serialize_object randrange Private_key_sign sigencode_der
      transaction secret w in
  let sign_run :=
    sign_transaction sha512 generator_mul RippleBaseDecoder_decode
      serialize_object randrange Private_key_sign sigencode_der
      transaction secret w in
  (exists d',
     heap (snd sig_run) = <[transaction := d']> (heap w) /\
     (forall field, field <> "SigningPubKey" -> d' !! field = d !! field) /\
     forall sig, fst sig_run = Ok sig ->
       exists seed key pubkey serialized sig_r sig_s,
         parse_seed RippleBaseDecoder_decode secret w = (Ok seed, w) /\
         root_key_from_seed sha512 generator_mul seed w = (Ok key, w) /\
         ecc_point_to_bytes_compressed (public_point key) true = Ok pubkey /\
         d' = <["SigningPubKey" := PyStr (fmt_hex pubkey)]> d /\
         serialize_object d' = Ok serialized /\
         Private_key_sign (secret_multiplier key)
           (from_bytes (fmt_hex (signing_digest sha512 serialized)))
           (randrange (drawn w)) = Ok (sig_r, sig_s) /\
         sig = fmt_hex (sigencode_der sig_r sig_s)) /\
  (exists d'',
     heap (snd sign_run) = <[transaction := d'']> (heap w) /\
     (forall field, field <> "SigningPubKey" -> field <> "TxnSignature" ->
        d'' !! field = d !! field) /\
     forall returned, fst sign_run = Ok returned ->
       returned = transaction /\
       exists sig w' d',
         sig_run = (Ok sig, w') /\
         heap w' !! transaction = Some d' /\
         d'' = <["TxnSignature" := PyStr sig]> d') /\
  forall seed key pubkey,
    parse_seed RippleBaseDecoder_decode secret w = (Ok seed, w) ->
    root_key_from_seed sha512 generator_mul seed w = (Ok key, w) ->
    ecc_point_to_bytes_compressed (public_point key) true = Ok pubkey ->
    let d' := <["SigningPubKey" := PyStr (fmt_hex pubkey)]> d in
    heap (snd sig_run) = <[transaction := d']> (heap w) /\
    d' !! "SigningPubKey" = Some (PyStr (fmt_hex pubkey)) /\
    d' !! "TxnSignature" = d !! "TxnSignature" /\
    fst sig_run =
    (serialized ← serialize_object d';
     '(sig_r, sig_s) ← Private_key_sign (secret_multiplier key)
                         (from_bytes (fmt_hex (signing_digest sha512 serialized)))
                         (randrange (drawn w));
     Ok (fmt_hex (sigencode_der sig_r sig_s))) /\
    match fst sig_run return Prop with
    | Ok sig =>
        sign_run =
        (Ok transaction,
         with_heap (snd sig_run)
           (<[transaction := <["TxnSignature" := PyStr sig]> d']> (heap w)))
    | Raise e => sign_run = (Raise e, snd sig_run)
    end.
Proof.
  intros Hd sig_run sign_run.
  pose proof (signature_for_transaction_frame transaction secret w d Hd) as Hsig.
  assert (Hsign : sign_run =
                  match sig_run with
                  | (Ok sig, w') =>
                      (_ ← setitem transaction "TxnSignature" (PyStr sig);
                       mret transaction) w'
                  | (Raise e, w') => (Raise e, w')
                  end).
  { subst sign_run sig_run. unfold sign_transaction, mbind at 1, M_bind.
    now destruct (signature_for_transaction _ _ _ _ _ _ _ _ _ _) as [[sig | e] w']. }
  split; [|split].
  - fold sig_run in Hsig. destruct sig_run as [r w'].
    destruct Hsig as (d' & Hheap & Hfields & Hok).
    exists d'. simpl. auto.
  - rewrite Hsign. fold sig_run in Hsig. destruct sig_run as [r w'].
    destruct Hsig as (d' & Hheap & Hfields & Hok).
    destruct r as [sig | e].
    + assert (Hset : (_ ← setitem transaction "TxnSignature" (PyStr sig);
                      mret transaction) w' =
                     (Ok transaction,
                      with_heap w'
                        (<[transaction := <["TxnSignature" := PyStr sig]> d']> (heap w)))).
      { unfold mbind, M_bind, setitem. rewrite Hheap, lookup_insert_eq.
        unfold with_heap. now rewrite insert_insert_eq. }
      rewrite Hset. simpl.
      exists (<["TxnSignature" := PyStr sig]> d'). split; [reflexivity|]. split.
      * intros field Hpub Htxn. rewrite lookup_insert_ne by auto. now apply Hfields.
      * intros returned [= <-]. split; [reflexivity|].
        exists sig, w', d'. rewrite Hheap, lookup_insert_eq. auto.
    + exists d'. split; [exact Hheap|]. split; [auto|]. discriminate.
  - intros seed key pubkey Hparse Hkey Hpub d'.
    pose proof (signature_for_transaction_written transaction secret seed pubkey key w d
                  Hd Hparse Hkey Hpub) as Hrun.
    cbv zeta in Hrun. fold d' in Hrun. fold sig_run in Hrun.
    rewrite Hsign, Hrun. clear Hsign Hrun Hsig.
    split.
    { destruct (serialize_object d') as [serialized | e]; [|reflexivity].
      now destruct (Private_key_sign _ _ _) as [[sig_r sig_s] | e]. }
    split; [apply lookup_insert_eq|].
    split; [now apply lookup_insert_ne|].
    unfold mbind at 1 2, result_bind.
    destruct (serialize_object d') as [serialized | e]; [|split; reflexivity].
    destruct (Private_key_sign _ _ _) as [[sig_r sig_s] | e]; [|split; reflexivity].
    split; [reflexivity|]. simpl.
    unfold mbind, M_bind, setitem. simpl. rewrite lookup_insert_eq. simpl.
    now rewrite insert_insert_eq.
Qed.

(** C3, what the code does: in every run of [signature_for_transaction]
    that returns, the number handed to the signing primitive is the
    big-endian value of the 64 characters of the hexadecimal text of the
    signing digest, which is at least [2 ^ 256], and not the value of the
    32-byte digest itself, which is below [2 ^ 256]. *)
Theorem signature_signs_the_hex_text (transaction : loc) (secret sig : string)
    (w w' : world) :
  (forall msg, String.length (sha512 msg) = 64%nat) ->
  signature_for_transaction sha512 generator_mul RippleBaseDecoder_decode
    serialize_object randrange Private_key_sign sigencode_der
    transaction secret w = (Ok sig, w') ->
  exists seed key pubkey d serialized sig_r sig_s,
    parse_seed RippleBaseDecoder_decode secret w = (Ok seed, w) /\
    root_key_from_seed sha512 generator_mul seed w = (Ok key, w) /\
    ecc_point_to_bytes_compressed (public_point key) true = Ok pubkey /\
    heap w !! transaction = Some d /\
    serialize_object (<["SigningPubKey" := PyStr (fmt_hex pubkey)]> d) = Ok serialized /\
    Private_key_sign (secret_multiplier key)
      (from_bytes (fmt_hex (signing_digest sha512 serialized)))
      (randrange (drawn w)) = Ok (sig_r, sig_s) /\
    sig = fmt_hex (sigencode_der sig_r sig_s) /\
    from_bytes (signing_digest sha512 serialized) < 2 ^ 256
    <= from_bytes (fmt_hex (signing_digest sha512 serialized)).
Proof.
  intros Hlen Hsig.
  destruct (heap w !! transaction) as [d|] eqn:Hd.
  2: { destruct (signature_for_transaction_no_object transaction secret w Hd) as [e He].
       rewrite He in Hsig. discriminate. }
  pose proof (signature_for_transaction_run transaction secret w d Hd) as Hrun.
  rewrite Hsig in Hrun.
  destruct Hrun as [(e & He & _) | (seed & key & pubkey & Hp & Hk & Hpub & Hrun)];
    [discriminate|].
  destruct Hrun as [(e & He & _) | (serialized & sig_r & sig_s & Hser & Hsign & Hr & _)];
    [discriminate|].
  injection Hr as ->.
  exists seed, key, pubkey, d, serialized, sig_r, sig_s.
  repeat (split; [assumption || reflexivity|]).
  now apply hex_text_is_not_the_digest.
Qed.

(** *** Effects *)

Lemma get_ripple_from_pubkey_run (pubkey : string) (w : world) :
  get_ripple_from_pubkey sha256 ripemd160 RippleBaseDecoder_encode pubkey w =
  (RippleBaseDecoder_encode (ripemd160 (sha256 pubkey)),
   with_stdout w (stdout w +:+ fmt_hex (ripemd160 (sha256 pubkey)) +:+ newline)).
Proof.
  unfold get_ripple_from_pubkey, mbind, M_bind, print, lift. simpl.
  now rewrite upper_hex_encode.
Qed.

Lemma ecdsa_sign_preserves_stdout (key : SigningKey) (bytes : string) :
  preserves stdout (ecdsa_sign randrange Private_key_sign sigencode_der key bytes).
Proof.
  intros w. unfold ecdsa_sign, mbind, M_bind, sign_number.
  now destruct (Private_key_sign _ _ _) as [[sig_r sig_s] | e].
Qed.

Lemma signature_for_transaction_preserves_stdout (transaction : loc) (secret : string) :
  preserves stdout
    (signature_for_transaction sha512 generator_mul RippleBaseDecoder_decode
       serialize_object randrange Private_key_sign sigencode_der transaction secret).
Proof.
  unfold signature_for_transaction.
  apply preserves_bind;
    [apply effect_free_preserves, parse_seed_effect_free | intros seed].
  apply preserves_bind;
    [apply effect_free_preserves, root_key_from_seed_effect_free | intros key].
  apply preserves_bind; [apply preserves_lift | intros pubkey].
  apply preserves_bind; [apply setitem_preserves_stdout | intros _].
  apply preserves_bind;
    [intros w; now rewrite create_signing_hash_unchanged | intros signing_hash].
  apply preserves_bind; [apply ecdsa_sign_preserves_stdout | intros der_coded].
  apply preserves_ret.
Qed.

Lemma writes_only_insert (keys : list string) (obj : loc) (w w' : world)
    (d d' : gmap string pyvalue) :
  heap w !! obj = Some d ->
  heap w' = <[obj := d']> (heap w) ->
  (forall field, ~ In field keys -> d' !! field = d !! field) ->
  writes_only keys obj w w'.
Proof.
  intros Hd Hheap Hfields. split.
  - intros other Hother. rewrite Hheap. now apply lookup_insert_ne.
  - rewrite Hd, Hheap, lookup_insert_eq. exact Hfields.
Qed.

Lemma writes_only_refl (keys : list string) (obj : loc) (w : world) :
  writes_only keys obj w w.
Proof. split; [reflexivity|]. now destruct (heap w !! obj). Qed.

Lemma signature_for_transaction_writes_only (transaction : loc) (secret : string)
    (w : world) :
  writes_only ["SigningPubKey"] transaction w
    (snd (signature_for_transaction sha512 generator_mul RippleBaseDecoder_decode
            serialize_object randrange Private_key_sign sigencode_der
            transaction secret w)).
Proof.
  destruct (heap w !! transaction) as [d|] eqn:Hd.
  - pose proof (signature_for_transaction_frame transaction secret w d Hd) as Hframe.
    destruct (signature_for_transaction _ _ _ _ _ _ _ _ _ _) as [r w'].
    destruct Hframe as (d' & Hheap & Hfields & _).
    apply (writes_only_insert _ _ _ _ d d' Hd Hheap).
    intros field Hfield. apply Hfields. intros ->. apply Hfield. now left.
  - destruct (signature_for_transaction_no_object transaction secret w Hd) as [e ->].
    apply writes_only_refl.
Qed.

Lemma sign_transaction_writes_only (transaction : loc) (secret : string) (w : world) :
  writes_only ["SigningPubKey"; "TxnSignature"] transaction w
    (snd (sign_transaction sha512 generator_mul RippleBaseDecoder_decode
            serialize_object randrange Private_key_sign sigencode_der
            transaction secret w)).
Proof.
  unfold sign_transaction, mbind at 1, M_bind.
  destruct (heap w !! transaction) as [d|] eqn:Hd.
  - pose proof (signature_for_transaction_frame transaction secret w d Hd) as Hframe.
    destruct (signature_for_transaction _ _ _ _ _ _ _ _ _ _) as [[sig | e] w'];
      destruct Hframe as (d' & Hheap & Hfields & _).
    + unfold mbind at 1, M_bind, setitem. rewrite Hheap, lookup_insert_eq. simpl.
      apply (writes_only_insert _ _ _ _ d (<["TxnSignature" := PyStr sig]> d') Hd).
      * now rewrite insert_insert_eq.
      * intros field Hfield. rewrite lookup_insert_ne.
        -- apply Hfields. intros ->. apply Hfield. now left.
        -- intros <-. apply Hfield. right. now left.
    + apply (writes_only_insert _ _ _ _ d d' Hd Hheap).
      intros field Hfield. apply Hfields. intros ->. apply Hfield. now left.
  - destruct (signature_for_transaction_no_object transaction secret w Hd) as [e ->].
    apply writes_only_refl.
Qed.

(** C8, as amended: every operation of the core leaves the caller's
    objects and standard output as it found them, the two field writes of
    the signing operations apart, except that [get_ripple_from_pubkey],
    and [get_ripple_from_secret] when it gets as far as calling it, write
    one line to standard output: the upper-case hexadecimal text of the
    RIPEMD-160 digest.  That line is their only effect. *)
Theorem effects_of_the_core :
  (forall secret, effect_free (parse_seed RippleBaseDecoder_decode secret)) /\
  (forall seed, effect_free (root_key_from_seed sha512 generator_mul seed)) /\
  (forall transaction testnet w,
      snd (create_signing_hash sha512 serialize_object transaction testnet w) = w) /\
  (forall pubkey w,
      get_ripple_from_pubkey sha256 ripemd160 RippleBaseDecoder_encode pubkey w =
      (RippleBaseDecoder_encode (ripemd160 (sha256 pubkey)),
       with_stdout w (stdout w +:+ fmt_hex (ripemd160 (sha256 pubkey)) +:+ newline))) /\
  (forall secret w,
      let (r, w') := get_ripple_from_secret sha512 sha256 ripemd160 generator_mul
                       RippleBaseDecoder_decode RippleBaseDecoder_encode secret w in
      (w' = w /\ exists e, r = Raise e) \/
      exists pubkey,
        r = RippleBaseDecoder_encode (ripemd160 (sha256 pubkey)) /\
        w' = with_stdout w (stdout w +:+ fmt_hex (ripemd160 (sha256 pubkey)) +:+ newline)) /\
  (forall transaction secret,
      preserves stdout
        (signature_for_transaction sha512 generator_mul RippleBaseDecoder_decode
           serialize_object randrange Private_key_sign sigencode_der transaction secret) /\
      preserves stdout
        (sign_transaction sha512 generator_mul RippleBaseDecoder_decode
           serialize_object randrange Private_key_sign sigencode_der transaction secret)) /\
  (forall transaction secret w,
      writes_only ["SigningPubKey"] transaction w
        (snd (signature_for_transaction sha512 generator_mul RippleBaseDecoder_decode
                serialize_object randrange Private_key_sign sigencode_der
                transaction secret w)) /\
      writes_only ["SigningPubKey"; "TxnSignature"] transaction w
        (snd (sign_transaction sha512 generator_mul RippleBaseDecoder_decode
                serialize_object randrange Private_key_sign sigencode_der
                transaction secret w))).
Proof.
  split; [exact parse_seed_effect_free|].
  split; [exact root_key_from_seed_effect_free|].
  split; [exact create_signing_hash_unchanged|].
  split; [exact get_ripple_from_pubkey_run|].
  split; [|split].
  - intros secret w. unfold get_ripple_from_secret.
    destruct (parse_seed_effect_free secret) as [rp Hp].
    unfold mbind at 1, M_bind. rewrite Hp.
    destruct rp as [seed | e]; [|left; eauto].
    destruct (root_key_from_seed_effect_free seed) as [rk Hk].
    unfold mbind at 1. rewrite Hk.
    destruct rk as [key | e]; [|left; eauto].
    unfold mbind at 1, lift at 1.
    destruct (ecc_point_to_bytes_compressed (public_point key) true) as [pubkey | e];
      [|left; eauto].
    rewrite get_ripple_from_pubkey_run. right. exists pubkey. auto.
  - intros transaction secret.
    split; [apply signature_for_transaction_preserves_stdout|].
    unfold sign_transaction.
    apply preserves_bind; [apply signature_for_transaction_preserves_stdout | intros sig].
    apply preserves_bind; [apply setitem_preserves_stdout | intros _].
    apply preserves_ret.
  - intros transaction secret w.
    split; [apply signature_for_transaction_writes_only | apply sign_transaction_writes_only].
Qed.

End SignProperties.

(** *** Malformed secrets *)

Lemma parse_seed_malformed (secret : string) :
  begins_with_s secret = false ->
  exists e, (e = AssertionError \/ e = IndexError) /\
    forall decode w, parse_seed decode secret w = (Raise e, w).
Proof.
  unfold begins_with_s, parse_seed. destruct secret as [|c rest]; simpl.
  - intros _. exists IndexError. split; [now right|]. reflexivity.
  - intros ->. exists AssertionError. split; [now left|]. reflexivity.
Qed.

(** C9: a secret that does not begin with ['s'] makes [parse_seed] raise
    (an [AssertionError], or an [IndexError] when the secret is empty)
    whatever the external decoder is, hence before it is invoked; every
    operation that takes a secret then raises the same exception and
    leaves the state untouched, whatever the hash function and the curve
    arithmetic are: no key material is derived. *)
Theorem malformed_secret_fails_fast (secret : string) :
  begins_with_s secret = false ->
  exists e, (e = AssertionError \/ e = IndexError) /\
    forall sha512 sha256 ripemd160 generator_mul decode encode serialize_object
           randrange Private_key_sign sigencode_der transaction w,
      parse_seed decode secret w = (Raise e, w) /\
      get_ripple_from_secret sha512 sha256 ripemd160 generator_mul decode encode
        secret w = (Raise e, w) /\
      signature_for_transaction sha512 generator_mul decode serialize_object
        randrange Private_key_sign sigencode_der transaction secret w = (Raise e, w) /\
      sign_transaction sha512 generator_mul decode serialize_object
        randrange Private_key_sign sigencode_der transaction secret w = (Raise e, w).
Proof.
  intros Hs. destruct (parse_seed_malformed secret Hs) as (e & He & Hparse).
  exists e. split; [exact He|]. intros.
  unfold sign_transaction, signature_for_transaction, get_ripple_from_secret.
  unfold mbind, M_bind. rewrite !Hparse. repeat split.
Qed.

Lemma malformed_secret_fails_fast_witness :
  begins_with_s "xrp" = false /\
  exists e, (e = AssertionError \/ e = IndexError) /\
    forall sha512 sha256 ripemd160 generator_mul decode encode serialize_object
           randrange Private_key_sign sigencode_der transaction w,
      parse_seed decode "xrp" w = (Raise e, w) /\
      get_ripple_from_secret sha512 sha256 ripemd160 generator_mul decode encode
        "xrp" w = (Raise e, w) /\
      signature_for_transaction sha512 generator_mul decode serialize_object
        randrange Private_key_sign sigencode_der transaction "xrp" w = (Raise e, w) /\
      sign_transaction sha512 generator_mul decode serialize_object
        randrange Private_key_sign sigencode_der transaction "xrp" w = (Raise e, w).
Proof.
  split; [reflexivity | apply (malformed_secret_fails_fast "xrp"); reflexivity].
Defined.

(** ** The test vectors *)

(** FIPS 180-4, the one-block message ["abc"]. *)
Example SHA512_abc :
  fmt_hex (SHA512.digest "abc") =
  "DDAF35A193617ABACC417349AE20413112E6FA4E89A97EA20A9EEEE64B55D39A2192992A274FC1A836BA3C23A3FEEBBD454D4423643CE80E2A9AC94FA54CA49F".
Proof. vm_compute. reflexivity. Qed.

(** The generator has the order of the curve, and the public point of
    the test vector lies on the curve. *)
Example generator_mul_order :
  SECP256k1.generator_mul SECP256k1.order = INFINITY /\
  SECP256k1.generator_mul (SECP256k1.order + 1) = SECP256k1.generator.
Proof. split; vm_compute; reflexivity. Qed.

Example wiki_public_point_on_curve :
  match public_point Vectors.wiki_key with
  | Point x y => SECP256k1.on_curve x y
  | INFINITY => False
  end.
Proof.
  unfold Vectors.wiki_key, public_point, SECP256k1.on_curve, SECP256k1.p.
  repeat split; lia.
Qed.

Lemma root_secret_from_seed_inv (sha512 : string -> string) (generator_mul : Z -> point)
    (seed : string) (private_gen : Z) (public_gen : point) (secret : Z) :
  root_secret_from_seed sha512 generator_mul seed = Ok (private_gen, public_gen, secret) ->
  private_gen_loop sha512 seed 0 = Ok private_gen /\
  public_gen = generator_mul private_gen /\
  exists public_gen_compressed candidate,
    ecc_point_to_bytes_compressed public_gen false = Ok public_gen_compressed /\
    secret_loop sha512 public_gen_compressed 0 = Ok candidate /\
    secret = candidate + private_gen mod SECP256k1.order.
Proof.
  unfold root_secret_from_seed, mbind, result_bind.
  destruct (private_gen_loop sha512 seed 0) as [pg | e]; [|discriminate].
  destruct (ecc_point_to_bytes_compressed (generator_mul pg) false) as [pgc | e] eqn:Hpgc;
    [|discriminate].
  destruct (secret_loop sha512 pgc 0) as [candidate | e] eqn:Hloop; [|discriminate].
  intros [= <- <- <-]. repeat split. exists pgc, candidate. auto.
Qed.

(** When [root_key_from_seed] returns a key, the key constructor has
    accepted the exponent, which is then below the order and equal to the
    sum of the two sampled values modulo the order.  The sum is not reduced
    before the constructor sees it: a seed whose sampled values add up to
    the order or more gets no key. *)
Lemma root_key_from_seed_scalar (sha512 : string -> string) (generator_mul : Z -> point)
    (seed : string) (key : SigningKey) (w w' : world) :
  root_key_from_seed sha512 generator_mul seed w = (Ok key, w') ->
  exists public_gen_compressed candidate,
    private_gen_loop sha512 seed 0 = Ok (private_gen key) /\
    ecc_point_to_bytes_compressed (public_gen key) false = Ok public_gen_compressed /\
    secret_loop sha512 public_gen_compressed 0 = Ok candidate /\
    secret_multiplier key = (candidate + private_gen key) mod SECP256k1.order /\
    1 <= secret_multiplier key < SECP256k1.order.
Proof.
  unfold root_key_from_seed, mbind at 1, M_bind, lift at 1.
  destruct (root_secret_from_seed sha512 generator_mul seed) as [[[pg pub] secret] | e]
    eqn:Hsecret; [|discriminate].
  unfold mbind at 1, M_bind, lift, from_secret_exponent.
  destruct ((1 <=? secret) && (secret <? SECP256k1.order)) eqn:Hrange; [|discriminate].
  intros [= <- <-]. simpl.
  destruct (root_secret_from_seed_inv _ _ _ _ _ _ Hsecret)
    as (Hpg & Hpub & pgc & candidate & Hpgc & Hloop & Hsum).
  exists pgc, candidate. repeat (split; [assumption|]).
  assert (Hsecexp : 1 <= secret < SECP256k1.order) by lia.
  split; [|exact Hsecexp].
  rewrite <- Z.add_mod_idemp_r by (unfold SECP256k1.order; lia).
  rewrite <- Hsum. symmetry. apply Z.mod_small. lia.
Qed.

Lemma zero_seed_secret :
  root_secret_from_seed SHA512.digest SECP256k1.generator_mul Vectors.zero_seed =
  Ok (Vectors.zero_private_gen, Vectors.zero_public_gen,
      Vectors.zero_secret_candidate + Vectors.zero_private_gen).
Proof. vm_compute. reflexivity. Qed.

(** C1, what the code does: for the seed of sixteen zero bytes the two
    sampled values are [zero_private_gen] and [zero_secret_candidate], and
    the scalar that [root_key_from_seed] hands to
    [SigningKey.from_secret_exponent] is their sum as it is, which is not
    below the curve order and is not the sum modulo the order; the key
    constructor refuses it and [root_key_from_seed] raises. *)
Theorem root_key_from_seed_zero_seed :
  private_gen_loop SHA512.digest Vectors.zero_seed 0 = Ok Vectors.zero_private_gen /\
  (exists public_gen_compressed,
      ecc_point_to_bytes_compressed
        (SECP256k1.generator_mul Vectors.zero_private_gen) false =
      Ok public_gen_compressed /\
      secret_loop SHA512.digest public_gen_compressed 0 =
      Ok Vectors.zero_secret_candidate) /\
  root_secret_from_seed SHA512.digest SECP256k1.generator_mul Vectors.zero_seed =
  Ok (Vectors.zero_private_gen, SECP256k1.generator_mul Vectors.zero_private_gen,
      Vectors.zero_secret_candidate + Vectors.zero_private_gen) /\
  SECP256k1.order <= Vectors.zero_secret_candidate + Vectors.zero_private_gen /\
  (Vectors.zero_secret_candidate + Vectors.zero_private_gen) mod SECP256k1.order <>
  Vectors.zero_secret_candidate + Vectors.zero_private_gen /\
  forall w,
    root_key_from_seed SHA512.digest SECP256k1.generator_mul Vectors.zero_seed w =
    (Raise AssertionError, w).
Proof.
  pose proof zero_seed_secret as Hsecret.
  destruct (root_secret_from_seed_inv _ _ _ _ _ _ Hsecret)
    as (Hpg & Hpub & pgc & candidate & Hpgc & Hloop & Hsum).
  assert (Hcandidate : candidate = Vectors.zero_secret_candidate).
  { assert (Hmod : Vectors.zero_private_gen mod SECP256k1.order =
                    Vectors.zero_private_gen) by (vm_compute; reflexivity).
    rewrite Hmod in Hsum. lia. }
  subst candidate.
  split; [exact Hpg|]. split.
  { exists pgc. rewrite <- Hpub. auto. }
  split; [rewrite <- Hpub; exact Hsecret|].
  split; [vm_compute; discriminate|].
  split; [vm_compute; discriminate|].
  intros w. unfold root_key_from_seed, mbind at 1, M_bind, lift at 1.
  rewrite Hsecret. reflexivity.
Qed.

(** The vector of [test_wiki_test_vector]: the seed has the private
    generator that the test expects, and the derivation returns a key. *)
Lemma wiki_root_key (w : world) :
  root_key_from_seed SHA512.digest SECP256k1.generator_mul Vectors.wiki_seed w =
  (Ok Vectors.wiki_key, w).
Proof.
  assert (Hsecret :
    root_secret_from_seed SHA512.digest SECP256k1.generator_mul Vectors.wiki_seed =
    Ok (private_gen Vectors.wiki_key, public_gen Vectors.wiki_key,
        secret_multiplier Vectors.wiki_key)) by (vm_compute; reflexivity).
  assert (Hkey :
    from_secret_exponent SECP256k1.generator_mul (secret_multiplier Vectors.wiki_key) =
    Ok (secret_multiplier Vectors.wiki_key, public_point Vectors.wiki_key))
    by (vm_compute; reflexivity).
  unfold root_key_from_seed, mbind, M_bind, lift. rewrite Hsecret, Hkey. reflexivity.
Qed.

Lemma wiki_pubkey_compressed :
  ecc_point_to_bytes_compressed (public_point Vectors.wiki_key) true =
  Ok Vectors.wiki_pubkey.
Proof. vm_compute. reflexivity. Qed.

Lemma wiki_signature_run :
  signature_for_transaction SHA512.digest SECP256k1.generator_mul Vectors.decode
    Vectors.serialize Vectors.nonce Vectors.sign Vectors.der
    Vectors.transaction Vectors.wiki_secret Vectors.w0 =
  (Ok Vectors.wiki_signature, Vectors.wiki_signed).
Proof.
  unfold signature_for_transaction, mbind at 1, M_bind.
  replace (parse_seed Vectors.decode Vectors.wiki_secret Vectors.w0)
    with (Ok Vectors.wiki_seed, Vectors.w0) by (vm_compute; reflexivity).
  unfold mbind at 1, M_bind. rewrite wiki_root_key.
  unfold mbind at 1, M_bind, lift at 1. rewrite wiki_pubkey_compressed.
  vm_compute. reflexivity.
Qed.

(** ** Witnesses and counterexamples *)

(** C8: [get_ripple_from_pubkey] writes a line to standard output. *)
Lemma get_ripple_from_pubkey_prints :
  stdout Vectors.w0 = EmptyString /\
  stdout (snd (get_ripple_from_pubkey Vectors.sha256 Vectors.ripemd160 Vectors.encode
                 "pubkey" Vectors.w0)) = "7075626B6579" +:+ newline /\
  snd (get_ripple_from_pubkey Vectors.sha256 Vectors.ripemd160 Vectors.encode
         "pubkey" Vectors.w0) <> Vectors.w0.
Proof.
  split; [reflexivity|]. split; [vm_compute; reflexivity|].
  intros Hsame. apply (f_equal stdout) in Hsame. vm_compute in Hsame. discriminate.
Qed.

Lemma signature_signs_the_hex_text_witness :
  (forall msg, String.length (SHA512.digest msg) = 64%nat) /\
  signature_for_transaction SHA512.digest SECP256k1.generator_mul Vectors.decode
    Vectors.serialize Vectors.nonce Vectors.sign Vectors.der
    Vectors.transaction Vectors.wiki_secret Vectors.w0 =
  (Ok Vectors.wiki_signature, Vectors.wiki_signed) /\
  exists seed key pubkey d serialized sig_r sig_s,
    parse_seed Vectors.decode Vectors.wiki_secret Vectors.w0 = (Ok seed, Vectors.w0) /\
    root_key_from_seed SHA512.digest SECP256k1.generator_mul seed Vectors.w0 =
    (Ok key, Vectors.w0) /\
    ecc_point_to_bytes_compressed (public_point key) true = Ok pubkey /\
    heap Vectors.w0 !! Vectors.transaction = Some d /\
    Vectors.serialize (<["SigningPubKey" := PyStr (fmt_hex pubkey)]> d) = Ok serialized /\
    Vectors.sign (secret_multiplier key)
      (from_bytes (fmt_hex (signing_digest SHA512.digest serialized)))
      (Vectors.nonce (drawn Vectors.w0)) = Ok (sig_r, sig_s) /\
    Vectors.wiki_signature = fmt_hex (Vectors.der sig_r sig_s) /\
    from_bytes (signing_digest SHA512.digest serialized) < 2 ^ 256
    <= from_bytes (fmt_hex (signing_digest SHA512.digest serialized)).
Proof.
  split; [exact SHA512_digest_length|]. split; [exact wiki_signature_run|].
  exact (signature_signs_the_hex_text SHA512.digest SECP256k1.generator_mul Vectors.decode
           Vectors.serialize Vectors.nonce Vectors.sign Vectors.der
           Vectors.transaction Vectors.wiki_secret Vectors.wiki_signature
           Vectors.w0 Vectors.wiki_signed SHA512_digest_length wiki_signature_run).
Defined.

Lemma create_signing_hash_spec_witness :
  heap Vectors.wiki_signed !! Vectors.transaction =
  Some {["SigningPubKey" := PyStr (fmt_hex Vectors.wiki_pubkey)]} /\
  Vectors.serialize {["SigningPubKey" := PyStr (fmt_hex Vectors.wiki_pubkey)]} =
  Ok (fmt_hex Vectors.wiki_pubkey) /\
  exists prefix_bytes,
    String.length prefix_bytes = 4%nat /\
    from_bytes prefix_bytes = 0x53545800 /\
    create_signing_hash SHA512.digest Vectors.serialize Vectors.transaction false
      Vectors.wiki_signed =
    (Ok (fmt_hex (slice_to 32 (SHA512.digest
                                 (prefix_bytes +:+ fmt_hex Vectors.wiki_pubkey)))),
     Vectors.wiki_signed).
Proof.
  split; [reflexivity|]. split; [reflexivity|].
  apply (create_signing_hash_spec SHA512.digest Vectors.serialize Vectors.transaction
           false Vectors.wiki_signed
           {["SigningPubKey" := PyStr (fmt_hex Vectors.wiki_pubkey)]}
           (fmt_hex Vectors.wiki_pubkey)); reflexivity.
Defined.

Lemma ecc_point_to_bytes_compressed_spec_witness :
  SECP256k1.on_curve
    0x79BE667EF9DCBBAC55A06295CE870B07029BFCDB2DCE28D959F2815B16F81798
    0x483ADA7726A3C4655DA4FBFC0E1108A8FD17B448A68554199C47D08FFB10D4B8 /\
  let x := 0x79BE667EF9DCBBAC55A06295CE870B07029BFCDB2DCE28D959F2815B16F81798 in
  let y := 0x483ADA7726A3C4655DA4FBFC0E1108A8FD17B448A68554199C47D08FFB10D4B8 in
  let header := if Z.even y then chr 2 else chr 3 in
  (exists bytes,
      ecc_point_to_bytes_compressed (Point x y) true = Ok (String header bytes) /\
      from_bytes bytes = x /\
      String.length (String header bytes) = 33%nat) /\
  (exists bytes,
      ecc_point_to_bytes_compressed (Point x y) false = Ok (String header bytes) /\
      from_bytes bytes = x /\
      forall other, from_bytes other = x ->
        (String.length bytes <= String.length other)%nat).
Proof.
  assert (Hcurve : SECP256k1.on_curve
    0x79BE667EF9DCBBAC55A06295CE870B07029BFCDB2DCE28D959F2815B16F81798
    0x483ADA7726A3C4655DA4FBFC0E1108A8FD17B448A68554199C47D08FFB10D4B8).
  { unfold SECP256k1.on_curve, SECP256k1.p. repeat split; lia. }
  split; [exact Hcurve|].
  exact (ecc_point_to_bytes_compressed_spec _ _ Hcurve).
Defined.

Lemma get_ripple_from_secret_roundtrip_witness :
  parse_seed Vectors.decode Vectors.wiki_secret Vectors.w0 =
  (Ok Vectors.wiki_seed, Vectors.w0) /\
  root_key_from_seed SHA512.digest SECP256k1.generator_mul Vectors.wiki_seed Vectors.w0 =
  (Ok Vectors.wiki_key, Vectors.w0) /\
  ecc_point_to_bytes_compressed (public_point Vectors.wiki_key) true =
  Ok Vectors.wiki_pubkey /\
  get_ripple_from_secret SHA512.digest Vectors.sha256 Vectors.ripemd160
    SECP256k1.generator_mul Vectors.decode Vectors.encode Vectors.wiki_secret Vectors.w0 =
  get_ripple_from_pubkey Vectors.sha256 Vectors.ripemd160 Vectors.encode
    Vectors.wiki_pubkey Vectors.w0.
Proof.
  assert (Hparse : parse_seed Vectors.decode Vectors.wiki_secret Vectors.w0 =
                   (Ok Vectors.wiki_seed, Vectors.w0)) by (vm_compute; reflexivity).
  split; [exact Hparse|]. split; [exact (wiki_root_key Vectors.w0)|].
  split; [exact wiki_pubkey_compressed|].
  exact (get_ripple_from_secret_roundtrip SHA512.digest Vectors.sha256 Vectors.ripemd160
           SECP256k1.generator_mul Vectors.decode Vectors.encode
           Vectors.wiki_secret Vectors.wiki_seed Vectors.wiki_pubkey Vectors.wiki_key
           Vectors.w0 Vectors.w0 Vectors.w0
           Hparse (wiki_root_key Vectors.w0) wiki_pubkey_compressed).
Defined.

Lemma payment_signature_run :
  signature_for_transaction SHA512.digest SECP256k1.generator_mul Vectors.decode
    Vectors.serialize Vectors.nonce Vectors.sign Vectors.der
    Vectors.transaction Vectors.wiki_secret Payment.w =
  (Ok Vectors.wiki_signature, Payment.w_keyed).
Proof.
  unfold signature_for_transaction, mbind at 1, M_bind.
  replace (parse_seed Vectors.decode Vectors.wiki_secret Payment.w)
    with (Ok Vectors.wiki_seed, Payment.w) by (vm_compute; reflexivity).
  unfold mbind at 1, M_bind. rewrite wiki_root_key.
  unfold mbind at 1, M_bind, lift at 1. rewrite wiki_pubkey_compressed.
  vm_compute. reflexivity.
Qed.

Lemma payment_signed_run :
  sign_transaction SHA512.digest SECP256k1.generator_mul Vectors.decode
    Vectors.serialize Vectors.nonce Vectors.sign Vectors.der
    Vectors.transaction Vectors.wiki_secret Payment.w =
  (Ok Vectors.transaction, Payment.w_signed).
Proof.
  unfold sign_transaction, mbind at 1, M_bind. rewrite payment_signature_run.
  vm_compute. reflexivity.
Qed.

(** The run on a payment with four fields: [signature_for_transaction]
    returns the signature and leaves the payment with its four fields and
    [SigningPubKey], without [TxnSignature]; [sign_transaction] returns the
    transaction and leaves it with [TxnSignature] as well. *)
Lemma signing_writes_only_its_fields_witness :
  heap Payment.w !! Vectors.transaction = Some Payment.unsigned /\
  Payment.unsigned !! "SigningPubKey" = None /\
  signature_for_transaction SHA512.digest SECP256k1.generator_mul Vectors.decode
    Vectors.serialize Vectors.nonce Vectors.sign Vectors.der
    Vectors.transaction Vectors.wiki_secret Payment.w =
  (Ok Vectors.wiki_signature, Payment.w_keyed) /\
  heap Payment.w_keyed !! Vectors.transaction = Some Payment.keyed /\
  Payment.keyed !! "SigningPubKey" = Some (PyStr (fmt_hex Vectors.wiki_pubkey)) /\
  Payment.keyed !! "TxnSignature" = None /\
  Payment.keyed !! "Amount" = Some (PyInt 1000000) /\
  sign_transaction SHA512.digest SECP256k1.generator_mul Vectors.decode
    Vectors.serialize Vectors.nonce Vectors.sign Vectors.der
    Vectors.transaction Vectors.wiki_secret Payment.w =
  (Ok Vectors.transaction, Payment.w_signed) /\
  heap Payment.w_signed !! Vectors.transaction = Some Payment.signed /\
  Payment.signed !! "TxnSignature" = Some (PyStr Vectors.wiki_signature) /\
  Payment.signed !! "SigningPubKey" = Some (PyStr (fmt_hex Vectors.wiki_pubkey)) /\
  Payment.signed !! "Amount" = Some (PyInt 1000000) /\
  let sig_run :=
    signature_for_transaction SHA512.digest SECP256k1.generator_mul Vectors.decode
      Vectors.serialize Vectors.nonce Vectors.sign Vectors.der
      Vectors.transaction Vectors.wiki_secret Payment.w in
  let sign_run :=
    sign_transaction SHA512.digest SECP256k1.generator_mul Vectors.decode
      Vectors.serialize Vectors.nonce Vectors.sign Vectors.der
      Vectors.transaction Vectors.wiki_secret Payment.w in
  (exists d' : gmap string pyvalue,
     heap (snd sig_run) = <[Vectors.transaction := d']> (heap Payment.w) /\
     (forall field : string, field <> "SigningPubKey" -> d' !! field = Payment.unsigned !! field) /\
     forall sig : string, fst sig_run = Ok sig ->
       exists (seed : string) (key : SigningKey) (pubkey serialized : string)
              (sig_r sig_s : Z),
         parse_seed Vectors.decode Vectors.wiki_secret Payment.w = (Ok seed, Payment.w) /\
         root_key_from_seed SHA512.digest SECP256k1.generator_mul seed Payment.w =
         (Ok key, Payment.w) /\
         ecc_point_to_bytes_compressed (public_point key) true = Ok pubkey /\
         d' = <["SigningPubKey" := PyStr (fmt_hex pubkey)]> Payment.unsigned /\
         Vectors.serialize d' = Ok serialized /\
         Vectors.sign (secret_multiplier key)
           (from_bytes (fmt_hex (signing_digest SHA512.digest serialized)))
           (Vectors.nonce (drawn Payment.w)) = Ok (sig_r, sig_s) /\
         sig = fmt_hex (Vectors.der sig_r sig_s)) /\
  (exists d'' : gmap string pyvalue,
     heap (snd sign_run) = <[Vectors.transaction := d'']> (heap Payment.w) /\
     (forall field : string, field <> "SigningPubKey" -> field <> "TxnSignature" ->
        d'' !! field = Payment.unsigned !! field) /\
     forall returned : loc, fst sign_run = Ok returned ->
       returned = Vectors.transaction /\
       exists (sig : string) (w' : world) (d' : gmap string pyvalue),
         sig_run = (Ok sig, w') /\
         heap w' !! Vectors.transaction = Some d' /\
         d'' = <["TxnSignature" := PyStr sig]> d') /\
  forall (seed : string) (key : SigningKey) (pubkey : string),
    parse_seed Vectors.decode Vectors.wiki_secret Payment.w = (Ok seed, Payment.w) ->
    root_key_from_seed SHA512.digest SECP256k1.generator_mul seed Payment.w =
    (Ok key, Payment.w) ->
    ecc_point_to_bytes_compressed (public_point key) true = Ok pubkey ->
    let d' := <["SigningPubKey" := PyStr (fmt_hex pubkey)]> Payment.unsigned in
    heap (snd sig_run) = <[Vectors.transaction := d']> (heap Payment.w) /\
    d' !! "SigningPubKey" = Some (PyStr (fmt_hex pubkey)) /\
    d' !! "TxnSignature" = Payment.unsigned !! "TxnSignature" /\
    fst sig_run =
    (serialized ← Vectors.serialize d';
     '(sig_r, sig_s) ← Vectors.sign (secret_multiplier key)
                         (from_bytes (fmt_hex (signing_digest SHA512.digest serialized)))
                         (Vectors.nonce (drawn Payment.w));
     Ok (fmt_hex (Vectors.der sig_r sig_s))) /\
    match fst sig_run return Prop with
    | Ok sig =>
        sign_run =
        (Ok Vectors.transaction,
         with_heap (snd sig_run)
           (<[Vectors.transaction := <["TxnSignature" := PyStr sig]> d']>
              (heap Payment.w)))
    | Raise e => sign_run = (Raise e, snd sig_run)
    end.
Proof.
  split; [reflexivity|]. split; [reflexivity|].
  split; [exact payment_signature_run|].
  split; [reflexivity|]. split; [reflexivity|]. split; [reflexivity|].
  split; [reflexivity|].
  split; [exact payment_signed_run|].
  split; [reflexivity|]. split; [reflexivity|]. split; [reflexivity|].
  split; [reflexivity|].
  exact (signing_writes_only_its_fields SHA512.digest SECP256k1.generator_mul
           Vectors.decode Vectors.serialize Vectors.nonce Vectors.sign Vectors.der
           Vectors.transaction Vectors.wiki_secret Payment.w Payment.unsigned eq_refl).
Defined.

(** * Further properties *)

(** ** Messages in parts *)

Lemma append_nil_r (s : string) : s +:+ EmptyString = s.
Proof.
  induction s as [|c s IH]; [reflexivity|].
  change (String c (s +:+ EmptyString) = String c s). now rewrite IH.
Qed.

Lemma append_assoc (a b c : string) : (a +:+ b) +:+ c = a +:+ (b +:+ c).
Proof.
  induction a as [|x a IH]; [reflexivity|].
  change (String x ((a +:+ b) +:+ c) = String x (a +:+ (b +:+ c))). now rewrite IH.
Qed.

Lemma fold_left_hash_update (parts : list string) (hash : string) :
  fold_left hash_update parts hash = hash +:+ concatenation parts.
Proof.
  revert hash. induction parts as [|part parts IH]; intros hash.
  - symmetry. apply append_nil_r.
  - simpl fold_left. rewrite IH. unfold hash_update. apply append_assoc.
Qed.

Lemma length_slice_to (n : nat) (s : string) : (String.length (slice_to n s) <= n)%nat.
Proof.
  revert s. induction n as [|n IH]; intros [|c s]; simpl; try lia.
  specialize (IH s). lia.
Qed.

(** X1: [first_half_of_sha512] hashes the concatenation of its parts: the
    result is the first 32 bytes of the digest of the parts joined in
    order, so it is the same however the bytes are split over the
    arguments; it never has more than 32 bytes, and read as a number it
    is below [2 ^ 256]. *)
Theorem first_half_of_sha512_concatenation (sha512 : string -> string)
    (parts : list string) :
  first_half_of_sha512 sha512 parts = slice_to 32 (sha512 (concatenation parts)) /\
  first_half_of_sha512 sha512 [concatenation parts] = first_half_of_sha512 sha512 parts /\
  (String.length (first_half_of_sha512 sha512 parts) <= 32)%nat /\
  0 <= from_bytes (first_half_of_sha512 sha512 parts) < 2 ^ 256.
Proof.
  assert (Hparts : first_half_of_sha512 sha512 parts =
                   slice_to 32 (sha512 (concatenation parts))).
  { unfold first_half_of_sha512. now rewrite fold_left_hash_update. }
  split; [exact Hparts|]. split.
  { rewrite Hparts. unfold first_half_of_sha512. rewrite fold_left_hash_update.
    unfold concatenation at 1. simpl fold_right. now rewrite append_nil_r. }
  assert (Hlen : (String.length (first_half_of_sha512 sha512 parts) <= 32)%nat).
  { rewrite Hparts. apply length_slice_to. }
  split; [exact Hlen|].
  pose proof (from_bytes_range (first_half_of_sha512 sha512 parts)) as [Hlo Hhi].
  split; [exact Hlo|].
  eapply Z.lt_le_trans; [exact Hhi|].
  change (2 ^ 256) with (256 ^ 32). apply Z.pow_le_mono_r; lia.
Qed.

(** ** The key that [root_key_from_seed] returns, and the seeds that get none *)

Lemma private_gen_loop_bound (sha512 : string -> string) (seed : string) (pg : Z) :
  private_gen_loop sha512 seed 0 = Ok pg -> 0 <= pg <= SECP256k1.order.
Proof.
  intros Hloop.
  assert (Hsampled : sampled (private_gen_candidate sha512 seed)
                       (private_gen_loop sha512 seed 0)).
  { apply (sampling_from (private_gen_candidate sha512 seed)); [| lia | intros; lia].
    intros seq. apply private_gen_loop_step. }
  rewrite Hloop in Hsampled. destruct Hsampled as (k & (_ & Hle & _) & ->).
  split; [apply from_bytes_range | exact Hle].
Qed.

Lemma secret_loop_bound (sha512 : string -> string) (public_gen_compressed : string)
    (s : Z) :
  secret_loop sha512 public_gen_compressed 0 = Ok s -> 0 <= s <= SECP256k1.order.
Proof.
  intros Hloop.
  assert (Hsampled : sampled (secret_candidate sha512 public_gen_compressed)
                       (secret_loop sha512 public_gen_compressed 0)).
  { apply (sampling_from (secret_candidate sha512 public_gen_compressed));
      [| lia | intros; lia].
    intros seq. apply secret_loop_step. }
  rewrite Hloop in Hsampled. destruct Hsampled as (k & (_ & Hle & _) & ->).
  split; [apply from_bytes_range | exact Hle].
Qed.


Section Derivation.

Variable sha512 : string -> string.
Variable generator_mul : Z -> point.

(** X2: the invariants of a key that [root_key_from_seed] returns: the
    private generator is what the first loop sampled and lies in
    [[0, order]]; the public generator is the generator of the curve times
    the private generator, and is not the point at infinity; the secret
    multiplier lies in [[1, order - 1]] and is the sum of the value that
    the second loop sampled and the private generator, modulo the order;
    the public point is the generator times the secret multiplier.  The
    state is as it was. *)
Theorem root_key_from_seed_returned_key (seed : string) (key : SigningKey)
    (w w' : world) :
  root_key_from_seed sha512 generator_mul seed w = (Ok key, w') ->
  w' = w /\
  private_gen_loop sha512 seed 0 = Ok (private_gen key) /\
  0 <= private_gen key <= SECP256k1.order /\
  public_gen key = generator_mul (private_gen key) /\
  public_gen key <> INFINITY /\
  public_point key = generator_mul (secret_multiplier key) /\
  1 <= secret_multiplier key < SECP256k1.order /\
  exists public_gen_compressed candidate,
    ecc_point_to_bytes_compressed (public_gen key) false = Ok public_gen_compressed /\
    secret_loop sha512 public_gen_compressed 0 = Ok candidate /\
    0 <= candidate <= SECP256k1.order /\
    secret_multiplier key = (candidate + private_gen key) mod SECP256k1.order.
Proof.
  intros Hkey.
  destruct (root_key_from_seed_scalar _ _ _ _ _ _ Hkey)
    as (pgc & candidate & Hpg & Hpgc & Hloop & Hsum & Hrange).
  revert Hkey.
  unfold root_key_from_seed, mbind at 1, M_bind, lift at 1.
  destruct (root_secret_from_seed sha512 generator_mul seed) as [[[pg pub] secret] | e]
    eqn:Hsecret; [|discriminate].
  unfold mbind at 1, M_bind, lift, from_secret_exponent.
  destruct ((1 <=? secret) && (secret <? SECP256k1.order)) eqn:Hin; [|discriminate].
  intros [= <- <-]. simpl in *.
  destruct (root_secret_from_seed_inv _ _ _ _ _ _ Hsecret) as (_ & Hpub & _).
  split; [reflexivity|]. split; [exact Hpg|].
  split; [exact (private_gen_loop_bound _ _ _ Hpg)|].
  split; [exact Hpub|].
  split; [intros Hinf; rewrite Hinf in Hpgc; discriminate|].
  split; [reflexivity|]. split; [exact Hrange|].
  exists pgc, candidate. split; [exact Hpgc|]. split; [exact Hloop|].
  split; [exact (secret_loop_bound _ _ _ Hloop) | exact Hsum].
Qed.

Lemma root_key_from_seed_raises (seed : string) (e : exn) :
  (root_secret_from_seed sha512 generator_mul seed = Raise e \/
   exists private_gen public_gen secret,
     root_secret_from_seed sha512 generator_mul seed =
     Ok (private_gen, public_gen, secret) /\
     from_secret_exponent generator_mul secret = Raise e) ->
  forall w, root_key_from_seed sha512 generator_mul seed w = (Raise e, w).
Proof.
  intros [Hsecret | (pg & pub & secret & Hsecret & Hkey)] w;
    unfold root_key_from_seed, mbind at 1, M_bind, lift at 1; rewrite Hsecret;
    [reflexivity|].
  unfold mbind at 1, M_bind, lift. now rewrite Hkey.
Qed.

End Derivation.

(** X3: when the candidate that the first loop accepts is 0 or the order
    of the curve (the exit test [order >= private_gen] lets the order
    through), the public generator is the point at infinity, which has no
    coordinates: [root_key_from_seed] raises a [TypeError] when it
    compresses it, and leaves the state as it was. *)
Theorem root_key_from_seed_generator_at_infinity (sha512 : string -> string)
    (seed : string) (pg : Z) (w : world) :
  private_gen_loop sha512 seed 0 = Ok pg ->
  pg = 0 \/ pg = SECP256k1.order ->
  root_key_from_seed sha512 SECP256k1.generator_mul seed w = (Raise TypeError, w).
Proof.
  intros Hloop Hpg. apply root_key_from_seed_raises. left.
  unfold root_secret_from_seed, mbind, result_bind. rewrite Hloop.
  assert (Hinf : SECP256k1.generator_mul pg = INFINITY)
    by (destruct Hpg as [-> | ->]; vm_compute; reflexivity).
  now rewrite Hinf.
Qed.

Lemma root_key_from_seed_generator_at_infinity_witness :
  private_gen_loop Vectors.order_digest Vectors.zero_seed 0 = Ok SECP256k1.order /\
  (SECP256k1.order = 0 \/ SECP256k1.order = SECP256k1.order) /\
  root_key_from_seed Vectors.order_digest SECP256k1.generator_mul Vectors.zero_seed
    Vectors.w0 = (Raise TypeError, Vectors.w0).
Proof.
  assert (Hloop : private_gen_loop Vectors.order_digest Vectors.zero_seed 0 =
                  Ok SECP256k1.order) by (vm_compute; reflexivity).
  split; [exact Hloop|]. split; [right; reflexivity|].
  exact (root_key_from_seed_generator_at_infinity Vectors.order_digest Vectors.zero_seed
           SECP256k1.order Vectors.w0 Hloop (or_intror eq_refl)).
Defined.

Lemma root_key_from_seed_returned_key_witness :
  root_key_from_seed SHA512.digest SECP256k1.generator_mul Vectors.wiki_seed Vectors.w0 =
  (Ok Vectors.wiki_key, Vectors.w0) /\
  Vectors.w0 = Vectors.w0 /\
  private_gen_loop SHA512.digest Vectors.wiki_seed 0 = Ok (private_gen Vectors.wiki_key) /\
  0 <= private_gen Vectors.wiki_key <= SECP256k1.order /\
  public_gen Vectors.wiki_key = SECP256k1.generator_mul (private_gen Vectors.wiki_key) /\
  public_gen Vectors.wiki_key <> INFINITY /\
  public_point Vectors.wiki_key =
  SECP256k1.generator_mul (secret_multiplier Vectors.wiki_key) /\
  1 <= secret_multiplier Vectors.wiki_key < SECP256k1.order /\
  exists public_gen_compressed candidate,
    ecc_point_to_bytes_compressed (public_gen Vectors.wiki_key) false =
    Ok public_gen_compressed /\
    secret_loop SHA512.digest public_gen_compressed 0 = Ok candidate /\
    0 <= candidate <= SECP256k1.order /\
    secret_multiplier Vectors.wiki_key =
    (candidate + private_gen Vectors.wiki_key) mod SECP256k1.order.
Proof.
  split; [exact (wiki_root_key Vectors.w0)|].
  exact (root_key_from_seed_returned_key SHA512.digest SECP256k1.generator_mul
           Vectors.wiki_seed Vectors.wiki_key Vectors.w0 Vectors.w0
           (wiki_root_key Vectors.w0)).
Defined.

(** The seed of sixteen zero bytes: the values that the two loops
    sample. *)
Lemma zero_seed_sampling :
  private_gen_loop SHA512.digest Vectors.zero_seed 0 = Ok Vectors.zero_private_gen /\
  ecc_point_to_bytes_compressed
    (SECP256k1.generator_mul Vectors.zero_private_gen) false =
  Ok Refusals.zero_public_gen_compressed /\
  secret_loop SHA512.digest Refusals.zero_public_gen_compressed 0 =
  Ok Vectors.zero_secret_candidate.
Proof.
  destruct (root_secret_from_seed_inv _ _ _ _ _ _ zero_seed_secret)
    as (Hpg & Hpub & pgc & candidate & Hpgc & Hloop & Hsum).
  assert (Hcompressed : ecc_point_to_bytes_compressed Vectors.zero_public_gen false =
                        Ok Refusals.zero_public_gen_compressed)
    by (vm_compute; reflexivity).
  rewrite Hcompressed in Hpgc. injection Hpgc as <-.
  assert (Hmod : Vectors.zero_private_gen mod SECP256k1.order =
                 Vectors.zero_private_gen) by (vm_compute; reflexivity).
  rewrite Hmod in Hsum.
  assert (candidate = Vectors.zero_secret_candidate) as -> by lia.
  rewrite <- Hpub. auto.
Qed.


(** ** Failures of the signing operations *)

Section Failures.

Variable sha512 : string -> string.
Variable sha256 : string -> string.
Variable ripemd160 : string -> string.
Variable generator_mul : Z -> point.
Variable RippleBaseDecoder_decode : string -> result string.
Variable RippleBaseDecoder_encode : string -> result string.
Variable serialize_object : gmap string pyvalue -> result string.
Variable randrange : nat -> Z.
Variable Private_key_sign : Z -> Z -> Z -> result (Z * Z).
Variable sigencode_der : Z -> Z -> string.

Lemma parse_seed_accepted (secret : string) (w : world) :
  begins_with_s secret = true ->
  parse_seed RippleBaseDecoder_decode secret w = (RippleBaseDecoder_decode secret, w).
Proof.
  unfold begins_with_s, parse_seed. destruct secret as [|c rest]; simpl; [discriminate|].
  now intros ->.
Qed.

(** A failure of the parser or of the key derivation comes before the
    first write. *)
Lemma fails_before_the_write (transaction : loc) (secret : string) (e : exn)
    (w : world) :
  (parse_seed RippleBaseDecoder_decode secret w = (Raise e, w) \/
   exists seed,
     parse_seed RippleBaseDecoder_decode secret w = (Ok seed, w) /\
     root_key_from_seed sha512 generator_mul seed w = (Raise e, w)) ->
  get_ripple_from_secret sha512 sha256 ripemd160 generator_mul
    RippleBaseDecoder_decode RippleBaseDecoder_encode secret w = (Raise e, w) /\
  signature_for_transaction sha512 generator_mul RippleBaseDecoder_decode
    serialize_object randrange Private_key_sign sigencode_der
    transaction secret w = (Raise e, w) /\
  sign_transaction sha512 generator_mul RippleBaseDecoder_decode
    serialize_object randrange Private_key_sign sigencode_der
    transaction secret w = (Raise e, w).
Proof.
  unfold sign_transaction, signature_for_transaction, get_ripple_from_secret.
  intros [Hparse | (seed & Hparse & Hkey)]; unfold mbind, M_bind; rewrite !Hparse.
  - repeat split.
  - rewrite !Hkey. repeat split.
Qed.

(** X4: the decoder is handed every secret that begins with ['s'], whole,
    and what it answers is what [parse_seed] answers; an exception of the
    decoder (a bad checksum, say) comes out unchanged of [parse_seed] and
    of every operation that takes a secret, which then has derived no key,
    written no field, printed nothing and drawn no nonce. *)
Theorem decoder_error_propagates (secret : string) (e : exn) (transaction : loc)
    (w : world) :
  begins_with_s secret = true ->
  RippleBaseDecoder_decode secret = Raise e ->
  parse_seed RippleBaseDecoder_decode secret w = (Raise e, w) /\
  get_ripple_from_secret sha512 sha256 ripemd160 generator_mul
    RippleBaseDecoder_decode RippleBaseDecoder_encode secret w = (Raise e, w) /\
  signature_for_transaction sha512 generator_mul RippleBaseDecoder_decode
    serialize_object randrange Private_key_sign sigencode_der
    transaction secret w = (Raise e, w) /\
  sign_transaction sha512 generator_mul RippleBaseDecoder_decode
    serialize_object randrange Private_key_sign sigencode_der
    transaction secret w = (Raise e, w).
Proof.
  intros Hs Hdecode.
  assert (Hparse : parse_seed RippleBaseDecoder_decode secret w = (Raise e, w))
    by (rewrite parse_seed_accepted by exact Hs; now rewrite Hdecode).
  split; [exact Hparse|]. apply fails_before_the_write. now left.
Qed.

(** X5: line 92 adds the second sampled value to the private generator
    reduced modulo the order and does not reduce the sum; when the sum is
    the order or more, the key constructor refuses it:
    [root_key_from_seed] raises an [AssertionError], and so does every
    operation that is given a secret of such a seed, before it has written
    or printed anything. *)
Theorem unreduced_sum_gets_no_key (secret seed public_gen_compressed : string)
    (pg s : Z) (transaction : loc) (w : world) :
  parse_seed RippleBaseDecoder_decode secret w = (Ok seed, w) ->
  private_gen_loop sha512 seed 0 = Ok pg ->
  ecc_point_to_bytes_compressed (generator_mul pg) false = Ok public_gen_compressed ->
  secret_loop sha512 public_gen_compressed 0 = Ok s ->
  SECP256k1.order <= s + pg mod SECP256k1.order ->
  root_key_from_seed sha512 generator_mul seed w = (Raise AssertionError, w) /\
  get_ripple_from_secret sha512 sha256 ripemd160 generator_mul
    RippleBaseDecoder_decode RippleBaseDecoder_encode secret w =
  (Raise AssertionError, w) /\
  signature_for_transaction sha512 generator_mul RippleBaseDecoder_decode
    serialize_object randrange Private_key_sign sigencode_der
    transaction secret w = (Raise AssertionError, w) /\
  sign_transaction sha512 generator_mul RippleBaseDecoder_decode
    serialize_object randrange Private_key_sign sigencode_der
    transaction secret w = (Raise AssertionError, w).
Proof.
  intros Hparse Hpg Hpgc Hloop Hsum.
  assert (Hkey : root_key_from_seed sha512 generator_mul seed w =
                 (Raise AssertionError, w)).
  { apply root_key_from_seed_raises. right.
    exists pg, (generator_mul pg), (s + pg mod SECP256k1.order). split.
    - unfold root_secret_from_seed, mbind, result_bind. now rewrite Hpg, Hpgc, Hloop.
    - unfold from_secret_exponent.
      destruct (_ <? SECP256k1.order) eqn:Hlt; [lia|]. now rewrite andb_false_r. }
  split; [exact Hkey|]. apply fails_before_the_write. right. now exists seed.
Qed.

(** X6: the public key is written before the transaction is serialized:
    when the serializer raises, [signature_for_transaction] and
    [sign_transaction] raise the same exception and leave the transaction
    with its [SigningPubKey] field set to the public key; nothing else has
    changed, no nonce has been drawn and no [TxnSignature] has been
    written. *)
Theorem serializer_failure_keeps_the_public_key (transaction : loc)
    (secret seed pubkey : string) (key : SigningKey) (d : gmap string pyvalue)
    (e : exn) (w : world) :
  heap w !! transaction = Some d ->
  parse_seed RippleBaseDecoder_decode secret w = (Ok seed, w) ->
  root_key_from_seed sha512 generator_mul seed w = (Ok key, w) ->
  ecc_point_to_bytes_compressed (public_point key) true = Ok pubkey ->
  serialize_object (<["SigningPubKey" := PyStr (fmt_hex pubkey)]> d) = Raise e ->
  let w_mid :=
    with_heap w (<[transaction := <["SigningPubKey" := PyStr (fmt_hex pubkey)]> d]>
                   (heap w)) in
  signature_for_transaction sha512 generator_mul RippleBaseDecoder_decode
    serialize_object randrange Private_key_sign sigencode_der
    transaction secret w = (Raise e, w_mid) /\
  sign_transaction sha512 generator_mul RippleBaseDecoder_decode
    serialize_object randrange Private_key_sign sigencode_der
    transaction secret w = (Raise e, w_mid).
Proof.
  intros Hd Hparse Hkey Hpub Hser w_mid.
  assert (Hsig : signature_for_transaction sha512 generator_mul RippleBaseDecoder_decode
                   serialize_object randrange Private_key_sign sigencode_der
                   transaction secret w = (Raise e, w_mid)).
  { unfold signature_for_transaction, mbind at 1 2 3 4, M_bind, lift, setitem.
    rewrite Hparse, Hkey, Hpub, Hd.
    unfold mbind at 1.
    rewrite (create_signing_hash_run sha512 serialize_object transaction false _
               (<["SigningPubKey" := PyStr (fmt_hex pubkey)]> d))
      by apply lookup_insert_eq.
    now rewrite Hser. }
  split; [exact Hsig|].
  unfold sign_transaction, mbind at 1, M_bind. now rewrite Hsig.
Qed.

(** X7: when the signing primitive raises, [signature_for_transaction]
    and [sign_transaction] raise the same exception; the transaction has
    its [SigningPubKey] field set, one nonce has been drawn, and
    [TxnSignature] has not been written. *)
Theorem signer_failure_keeps_the_public_key (transaction : loc)
    (secret seed pubkey serialized : string) (key : SigningKey)
    (d : gmap string pyvalue) (e : exn) (w : world) :
  heap w !! transaction = Some d ->
  parse_seed RippleBaseDecoder_decode secret w = (Ok seed, w) ->
  root_key_from_seed sha512 generator_mul seed w = (Ok key, w) ->
  ecc_point_to_bytes_compressed (public_point key) true = Ok pubkey ->
  serialize_object (<["SigningPubKey" := PyStr (fmt_hex pubkey)]> d) = Ok serialized ->
  Private_key_sign (secret_multiplier key)
    (from_bytes (fmt_hex (signing_digest sha512 serialized)))
    (randrange (drawn w)) = Raise e ->
  let w_signed :=
    {| heap := <[transaction := <["SigningPubKey" := PyStr (fmt_hex pubkey)]> d]> (heap w);
       stdout := stdout w; drawn := S (drawn w) |} in
  signature_for_transaction sha512 generator_mul RippleBaseDecoder_decode
    serialize_object randrange Private_key_sign sigencode_der
    transaction secret w = (Raise e, w_signed) /\
  sign_transaction sha512 generator_mul RippleBaseDecoder_decode
    serialize_object randrange Private_key_sign sigencode_der
    transaction secret w = (Raise e, w_signed).
Proof.
  intros Hd Hparse Hkey Hpub Hser Hsign w_signed.
  assert (Hsig : signature_for_transaction sha512 generator_mul RippleBaseDecoder_decode
                   serialize_object randrange Private_key_sign sigencode_der
                   transaction secret w = (Raise e, w_signed)).
  { unfold signature_for_transaction, mbind at 1 2 3 4, M_bind, lift, setitem.
    rewrite Hparse, Hkey, Hpub, Hd.
    unfold mbind at 1.
    rewrite (create_signing_hash_run sha512 serialize_object transaction false _
               (<["SigningPubKey" := PyStr (fmt_hex pubkey)]> d))
      by apply lookup_insert_eq.
    rewrite Hser. simpl.
    unfold mbind at 1, ecdsa_sign, mbind at 1, sign_number, M_bind. simpl.
    unfold signing_digest in Hsign. simpl in Hsign. now rewrite Hsign. }
  split; [exact Hsig|].
  unfold sign_transaction, mbind at 1, M_bind. now rewrite Hsig.
Qed.

End Failures.

Lemma decoder_error_propagates_witness :
  begins_with_s "snoopy" = true /\
  Vectors.decode "snoopy" = Raise (OtherError "unknown secret") /\
  parse_seed Vectors.decode "snoopy" Vectors.w0 =
  (Raise (OtherError "unknown secret"), Vectors.w0) /\
  get_ripple_from_secret SHA512.digest Vectors.sha256 Vectors.ripemd160
    SECP256k1.generator_mul Vectors.decode Vectors.encode "snoopy" Vectors.w0 =
  (Raise (OtherError "unknown secret"), Vectors.w0) /\
  signature_for_transaction SHA512.digest SECP256k1.generator_mul Vectors.decode
    Vectors.serialize Vectors.nonce Vectors.sign Vectors.der
    Vectors.transaction "snoopy" Vectors.w0 =
  (Raise (OtherError "unknown secret"), Vectors.w0) /\
  sign_transaction SHA512.digest SECP256k1.generator_mul Vectors.decode
    Vectors.serialize Vectors.nonce Vectors.sign Vectors.der
    Vectors.transaction "snoopy" Vectors.w0 =
  (Raise (OtherError "unknown secret"), Vectors.w0).
Proof.
  split; [reflexivity|]. split; [reflexivity|].
  exact (decoder_error_propagates SHA512.digest Vectors.sha256 Vectors.ripemd160
           SECP256k1.generator_mul Vectors.decode Vectors.encode Vectors.serialize
           Vectors.nonce Vectors.sign Vectors.der "snoopy"
           (OtherError "unknown secret") Vectors.transaction Vectors.w0
           eq_refl eq_refl).
Defined.

Lemma unreduced_sum_gets_no_key_witness :
  parse_seed Refusals.zero_decode "s" Vectors.w0 = (Ok Vectors.zero_seed, Vectors.w0) /\
  private_gen_loop SHA512.digest Vectors.zero_seed 0 = Ok Vectors.zero_private_gen /\
  ecc_point_to_bytes_compressed
    (SECP256k1.generator_mul Vectors.zero_private_gen) false =
  Ok Refusals.zero_public_gen_compressed /\
  secret_loop SHA512.digest Refusals.zero_public_gen_compressed 0 =
  Ok Vectors.zero_secret_candidate /\
  SECP256k1.order <=
  Vectors.zero_secret_candidate + Vectors.zero_private_gen mod SECP256k1.order /\
  root_key_from_seed SHA512.digest SECP256k1.generator_mul Vectors.zero_seed Vectors.w0 =
  (Raise AssertionError, Vectors.w0) /\
  get_ripple_from_secret SHA512.digest Vectors.sha256 Vectors.ripemd160
    SECP256k1.generator_mul Refusals.zero_decode Vectors.encode "s" Vectors.w0 =
  (Raise AssertionError, Vectors.w0) /\
  signature_for_transaction SHA512.digest SECP256k1.generator_mul Refusals.zero_decode
    Vectors.serialize Vectors.nonce Vectors.sign Vectors.der
    Vectors.transaction "s" Vectors.w0 = (Raise AssertionError, Vectors.w0) /\
  sign_transaction SHA512.digest SECP256k1.generator_mul Refusals.zero_decode
    Vectors.serialize Vectors.nonce Vectors.sign Vectors.der
    Vectors.transaction "s" Vectors.w0 = (Raise AssertionError, Vectors.w0).
Proof.
  destruct zero_seed_sampling as (Hpg & Hpgc & Hloop).
  assert (Hsum : SECP256k1.order <=
                 Vectors.zero_secret_candidate +
                 Vectors.zero_private_gen mod SECP256k1.order)
    by (vm_compute; discriminate).
  split; [reflexivity|]. split; [exact Hpg|]. split; [exact Hpgc|].
  split; [exact Hloop|]. split; [exact Hsum|].
  exact (unreduced_sum_gets_no_key SHA512.digest Vectors.sha256 Vectors.ripemd160
           SECP256k1.generator_mul Refusals.zero_decode Vectors.encode Vectors.serialize
           Vectors.nonce Vectors.sign Vectors.der "s" Vectors.zero_seed
           Refusals.zero_public_gen_compressed Vectors.zero_private_gen
           Vectors.zero_secret_candidate Vectors.transaction Vectors.w0
           eq_refl Hpg Hpgc Hloop Hsum).
Defined.

Lemma wiki_parse_seed (w : world) :
  parse_seed Vectors.decode Vectors.wiki_secret w = (Ok Vectors.wiki_seed, w).
Proof. reflexivity. Qed.

Lemma serializer_failure_keeps_the_public_key_witness :
  heap Vectors.w0 !! Vectors.transaction = Some ∅ /\
  parse_seed Vectors.decode Vectors.wiki_secret Vectors.w0 =
  (Ok Vectors.wiki_seed, Vectors.w0) /\
  root_key_from_seed SHA512.digest SECP256k1.generator_mul Vectors.wiki_seed Vectors.w0 =
  (Ok Vectors.wiki_key, Vectors.w0) /\
  ecc_point_to_bytes_compressed (public_point Vectors.wiki_key) true =
  Ok Vectors.wiki_pubkey /\
  Refusals.serialize (<["SigningPubKey" := PyStr (fmt_hex Vectors.wiki_pubkey)]> ∅) =
  Raise (OtherError "unknown field") /\
  signature_for_transaction SHA512.digest SECP256k1.generator_mul Vectors.decode
    Refusals.serialize Vectors.nonce Vectors.sign Vectors.der
    Vectors.transaction Vectors.wiki_secret Vectors.w0 =
  (Raise (OtherError "unknown field"), Refusals.wiki_written) /\
  sign_transaction SHA512.digest SECP256k1.generator_mul Vectors.decode
    Refusals.serialize Vectors.nonce Vectors.sign Vectors.der
    Vectors.transaction Vectors.wiki_secret Vectors.w0 =
  (Raise (OtherError "unknown field"), Refusals.wiki_written).
Proof.
  split; [reflexivity|]. split; [exact (wiki_parse_seed Vectors.w0)|].
  split; [exact (wiki_root_key Vectors.w0)|]. split; [exact wiki_pubkey_compressed|].
  split; [reflexivity|].
  exact (serializer_failure_keeps_the_public_key SHA512.digest SECP256k1.generator_mul
           Vectors.decode Refusals.serialize Vectors.nonce Vectors.sign Vectors.der
           Vectors.transaction Vectors.wiki_secret Vectors.wiki_seed Vectors.wiki_pubkey
           Vectors.wiki_key ∅ (OtherError "unknown field") Vectors.w0
           eq_refl (wiki_parse_seed Vectors.w0) (wiki_root_key Vectors.w0)
           wiki_pubkey_compressed eq_refl).
Defined.

Lemma signer_failure_keeps_the_public_key_witness :
  heap Vectors.w0 !! Vectors.transaction = Some ∅ /\
  parse_seed Vectors.decode Vectors.wiki_secret Vectors.w0 =
  (Ok Vectors.wiki_seed, Vectors.w0) /\
  root_key_from_seed SHA512.digest SECP256k1.generator_mul Vectors.wiki_seed Vectors.w0 =
  (Ok Vectors.wiki_key, Vectors.w0) /\
  ecc_point_to_bytes_compressed (public_point Vectors.wiki_key) true =
  Ok Vectors.wiki_pubkey /\
  Vectors.serialize (<["SigningPubKey" := PyStr (fmt_hex Vectors.wiki_pubkey)]> ∅) =
  Ok (fmt_hex Vectors.wiki_pubkey) /\
  Refusals.sign (secret_multiplier Vectors.wiki_key)
    (from_bytes (fmt_hex (signing_digest SHA512.digest (fmt_hex Vectors.wiki_pubkey))))
    (Vectors.nonce (drawn Vectors.w0)) = Raise (OtherError "unlucky random number") /\
  signature_for_transaction SHA512.digest SECP256k1.generator_mul Vectors.decode
    Vectors.serialize Vectors.nonce Refusals.sign Vectors.der
    Vectors.transaction Vectors.wiki_secret Vectors.w0 =
  (Raise (OtherError "unlucky random number"), Refusals.wiki_drawn) /\
  sign_transaction SHA512.digest SECP256k1.generator_mul Vectors.decode
    Vectors.serialize Vectors.nonce Refusals.sign Vectors.der
    Vectors.transaction Vectors.wiki_secret Vectors.w0 =
  (Raise (OtherError "unlucky random number"), Refusals.wiki_drawn).
Proof.
  split; [reflexivity|]. split; [exact (wiki_parse_seed Vectors.w0)|].
  split; [exact (wiki_root_key Vectors.w0)|]. split; [exact wiki_pubkey_compressed|].
  split; [reflexivity|]. split; [reflexivity|].
  exact (signer_failure_keeps_the_public_key SHA512.digest SECP256k1.generator_mul
           Vectors.decode Vectors.serialize Vectors.nonce Refusals.sign Vectors.der
           Vectors.transaction Vectors.wiki_secret Vectors.wiki_seed Vectors.wiki_pubkey
           (fmt_hex Vectors.wiki_pubkey) Vectors.wiki_key ∅
           (OtherError "unlucky random number") Vectors.w0
           eq_refl (wiki_parse_seed Vectors.w0) (wiki_root_key Vectors.w0)
           wiki_pubkey_compressed eq_refl eq_refl).
Defined.

(** ** What the signing operations depend on and what they produce *)

Lemma fmt_hex_upper_hex (s : string) : all_chars upper_hex_char (fmt_hex s) = true.
Proof.
  induction s as [|c s IH]; [reflexivity|].
  simpl. rewrite IH.
  destruct c as [[] [] [] [] [] [] [] []]; vm_compute; reflexivity.
Qed.

Lemma ecc_point_to_bytes_compressed_inv (x y : Z) (pad : bool) (bytes : string) :
  ecc_point_to_bytes_compressed (Point x y) pad = Ok bytes ->
  exists body,
    bytes = String (if y mod 2 =? 0 then chr 2 else chr 3) body /\
    from_bytes body = x /\
    (pad = true -> String.length body = 32%nat).
Proof.
  unfold ecc_point_to_bytes_compressed, mbind, result_bind.
  destruct (to_bytes x _) as [body | e] eqn:Hbody; [|discriminate].
  intros [= <-]. exists body.
  split; [now destruct (y mod 2 =? 0)|].
  assert (Hx : 0 <= x).
  { unfold to_bytes in Hbody. destruct (x <? 0) eqn:Hneg; [discriminate | lia]. }
  destruct pad.
  - change (bit_length SECP256k1.order / 8) with 32 in Hbody.
    assert (Hfit : x < 256 ^ 32).
    { unfold to_bytes in Hbody. destruct (x <? 0); [discriminate|].
      destruct (x <? 256 ^ 32) eqn:Hlt; [lia | discriminate]. }
    destruct (to_bytes_fixed x 32) as (body' & Hbody' & Hlen & Hval); [lia | lia |].
    rewrite Hbody in Hbody'. injection Hbody' as <-. auto.
  - destruct (to_bytes_minimal x Hx) as (body' & Hbody' & Hval & _).
    rewrite Hbody in Hbody'. injection Hbody' as <-.
    split; [exact Hval | discriminate].
Qed.

(** X8: the compressed form identifies the point, padded or not: its
    first byte is 2 plus the parity of [y], the bytes after it decode to
    [x], and two points with the same compressed form have the same [x]
    and the same parity of [y]. *)
Theorem compressed_point_identifies_x_and_parity (x y : Z) (pad : bool)
    (bytes : string) :
  ecc_point_to_bytes_compressed (Point x y) pad = Ok bytes ->
  exists header body,
    bytes = String header body /\
    ord header = 2 + y mod 2 /\
    from_bytes body = x /\
    forall x' y' pad',
      ecc_point_to_bytes_compressed (Point x' y') pad' = Ok bytes ->
      x' = x /\ y' mod 2 = y mod 2.
Proof.
  intros Hbytes.
  destruct (ecc_point_to_bytes_compressed_inv _ _ _ _ Hbytes) as (body & -> & Hx & _).
  assert (Hheader : forall z, ord (if z mod 2 =? 0 then chr 2 else chr 3) = 2 + z mod 2).
  { intros z. pose proof (Z.mod_pos_bound z 2).
    destruct (z mod 2 =? 0) eqn:Hz.
    - apply Z.eqb_eq in Hz. rewrite Hz. reflexivity.
    - apply Z.eqb_neq in Hz. replace (z mod 2) with 1 by lia. reflexivity. }
  exists (if y mod 2 =? 0 then chr 2 else chr 3), body.
  split; [reflexivity|]. split; [apply Hheader|]. split; [exact Hx|].
  intros x' y' pad' Hbytes'.
  destruct (ecc_point_to_bytes_compressed_inv _ _ _ _ Hbytes') as (body' & Heq & Hx' & _).
  injection Heq as Hh Hb. subst body'. split; [congruence|].
  apply (f_equal ord) in Hh. rewrite !Hheader in Hh. lia.
Qed.

Lemma compressed_point_identifies_x_and_parity_witness :
  ecc_point_to_bytes_compressed (public_point Vectors.wiki_key) true =
  Ok Vectors.wiki_pubkey /\
  exists header body,
    Vectors.wiki_pubkey = String header body /\
    ord header =
    2 + 0x5163BFA112B7B679A96DA29661642411893D1E55DBDF0E30974D2B302294A8B5 mod 2 /\
    from_bytes body =
    0xFA25B68DA6FF6832E4462FDFB9A2AAA58888C0ED17285FFE92E4465E0C6E782A /\
    forall x' y' pad',
      ecc_point_to_bytes_compressed (Point x' y') pad' = Ok Vectors.wiki_pubkey ->
      x' = 0xFA25B68DA6FF6832E4462FDFB9A2AAA58888C0ED17285FFE92E4465E0C6E782A /\
      y' mod 2 =
      0x5163BFA112B7B679A96DA29661642411893D1E55DBDF0E30974D2B302294A8B5 mod 2.
Proof.
  split; [exact wiki_pubkey_compressed|].
  exact (compressed_point_identifies_x_and_parity _ _ true Vectors.wiki_pubkey
           wiki_pubkey_compressed).
Defined.

Section Signing.

Variable sha512 : string -> string.
Variable generator_mul : Z -> point.
Variable RippleBaseDecoder_decode : string -> result string.
Variable serialize_object : gmap string pyvalue -> result string.
Variable randrange : nat -> Z.
Variable Private_key_sign : Z -> Z -> Z -> result (Z * Z).
Variable sigencode_der : Z -> Z -> string.

(** The run of [signature_for_transaction] written out: what precedes the
    write does not look at the state. *)
Lemma signature_for_transaction_eval (transaction : loc) (secret : string) :
  exists before : result (SigningKey * string),
    (forall key pubkey, before = Ok (key, pubkey) ->
       ecc_point_to_bytes_compressed (public_point key) true = Ok pubkey) /\
    forall w,
      signature_for_transaction sha512 generator_mul RippleBaseDecoder_decode
        serialize_object randrange Private_key_sign sigencode_der
        transaction secret w =
      match before with
      | Raise e => (Raise e, w)
      | Ok (key, pubkey) =>
          match heap w !! transaction with
          | None => (Raise TypeError, w)
          | Some d =>
              let d' := <["SigningPubKey" := PyStr (fmt_hex pubkey)]> d in
              let w_mid := with_heap w (<[transaction := d']> (heap w)) in
              match serialize_object d' with
              | Raise e => (Raise e, w_mid)
              | Ok serialized =>
                  match Private_key_sign (secret_multiplier key)
                          (from_bytes (fmt_hex (signing_digest sha512 serialized)))
                          (randrange (drawn w)) with
                  | Raise e => (Raise e, with_drawn w_mid (S (drawn w)))
                  | Ok (sig_r, sig_s) =>
                      (Ok (fmt_hex (sigencode_der sig_r sig_s)),
                       with_drawn w_mid (S (drawn w)))
                  end
              end
          end
      end.
Proof.
  destruct (parse_seed_effect_free RippleBaseDecoder_decode secret) as [rp Hp].
  destruct rp as [seed | e].
  2: { exists (Raise e). split; [discriminate|]. intros w.
       unfold signature_for_transaction, mbind at 1, M_bind. now rewrite Hp. }
  destruct (root_key_from_seed_effect_free sha512 generator_mul seed) as [rk Hk].
  destruct rk as [key | e].
  2: { exists (Raise e). split; [discriminate|]. intros w.
       unfold signature_for_transaction, mbind at 1, M_bind. rewrite Hp.
       unfold mbind at 1. now rewrite Hk. }
  destruct (ecc_point_to_bytes_compressed (public_point key) true) as [pubkey | e]
    eqn:Hpub.
  2: { exists (Raise e). split; [discriminate|]. intros w.
       unfold signature_for_transaction, mbind at 1, M_bind. rewrite Hp.
       unfold mbind at 1. rewrite Hk. unfold mbind at 1, lift at 1. now rewrite Hpub. }
  exists (Ok (key, pubkey)). split; [now intros ? ? [= <- <-]|]. intros w.
  unfold signature_for_transaction, mbind at 1, M_bind. rewrite Hp.
  unfold mbind at 1. rewrite Hk. unfold mbind at 1, lift at 1. rewrite Hpub.
  unfold mbind at 1, setitem at 1.
  destruct (heap w !! transaction) as [d|] eqn:Hd; [|reflexivity].
  unfold mbind at 1.
  rewrite (create_signing_hash_run sha512 serialize_object transaction false _
             (<["SigningPubKey" := PyStr (fmt_hex pubkey)]> d))
    by apply lookup_insert_eq.
  destruct (serialize_object _) as [serialized | e]; [|reflexivity]. simpl.
  unfold mbind at 1, ecdsa_sign, mbind at 1, sign_number, M_bind. simpl.
  destruct (Private_key_sign _ _ _) as [[sig_r sig_s] | e]; reflexivity.
Qed.

(** X9: [sign_transaction] fails exactly when [signature_for_transaction]
    fails, with the same exception and in the state that the latter has
    left; otherwise it leaves the transaction with [TxnSignature] set to
    the signature, changes nothing else in that state, and returns the
    reference it was given. *)
Theorem sign_transaction_by_signature (transaction : loc) (secret : string) (w : world) :
  match signature_for_transaction sha512 generator_mul RippleBaseDecoder_decode
          serialize_object randrange Private_key_sign sigencode_der
          transaction secret w with
  | (Ok sig, w') =>
      exists d',
        heap w' !! transaction = Some d' /\
        sign_transaction sha512 generator_mul RippleBaseDecoder_decode
          serialize_object randrange Private_key_sign sigencode_der
          transaction secret w =
        (Ok transaction,
         with_heap w' (<[transaction := <["TxnSignature" := PyStr sig]> d']> (heap w')))
  | (Raise e, w') =>
      sign_transaction sha512 generator_mul RippleBaseDecoder_decode
        serialize_object randrange Private_key_sign sigencode_der
        transaction secret w = (Raise e, w')
  end.
Proof.
  destruct (signature_for_transaction_eval transaction secret) as (before & _ & Hrun).
  unfold sign_transaction, mbind, M_bind. rewrite !Hrun.
  destruct before as [[key pubkey] | e]; [|reflexivity].
  destruct (heap w !! transaction) as [d|]; [|reflexivity]. cbv zeta.
  destruct (serialize_object _) as [serialized | e]; [|reflexivity].
  destruct (Private_key_sign _ _ _) as [[sig_r sig_s] | e]; [|reflexivity].
  eexists. split; [apply lookup_insert_eq|].
  unfold setitem. simpl. now rewrite lookup_insert_eq.
Qed.

(** X10: the signing operations read the secret, the fields of the
    transaction and the position in the system's entropy, and nothing
    else: in two states that agree on these they give the same result
    (signature or exception) and leave the same fields in the
    transaction, whatever the other objects and the standard output
    are. *)
Theorem signing_reads_only_its_transaction (transaction : loc) (secret : string)
    (w1 w2 : world) :
  heap w1 !! transaction = heap w2 !! transaction ->
  drawn w1 = drawn w2 ->
  let sig := signature_for_transaction sha512 generator_mul RippleBaseDecoder_decode
               serialize_object randrange Private_key_sign sigencode_der
               transaction secret in
  let signed := sign_transaction sha512 generator_mul RippleBaseDecoder_decode
                  serialize_object randrange Private_key_sign sigencode_der
                  transaction secret in
  fst (sig w1) = fst (sig w2) /\
  heap (snd (sig w1)) !! transaction = heap (snd (sig w2)) !! transaction /\
  fst (signed w1) = fst (signed w2) /\
  heap (snd (signed w1)) !! transaction = heap (snd (signed w2)) !! transaction.
Proof.
  intros Hheap Hdrawn sig signed. subst sig signed.
  destruct (signature_for_transaction_eval transaction secret) as (before & _ & Hrun).
  unfold sign_transaction, mbind, M_bind. rewrite !Hrun. clear Hrun.
  destruct before as [[key pubkey] | e]; [|simpl; auto].
  rewrite Hheap, Hdrawn.
  destruct (heap w2 !! transaction) as [d|] eqn:Hd; [|simpl; rewrite Hd; auto].
  cbv zeta.
  destruct (serialize_object _) as [serialized | e];
    [|simpl; rewrite !lookup_insert_eq; auto].
  destruct (Private_key_sign _ _ _) as [[sig_r sig_s] | e];
    [|simpl; rewrite !lookup_insert_eq; auto].
  unfold setitem. simpl. rewrite !lookup_insert_eq. simpl.
  rewrite !lookup_insert_eq. auto.
Qed.

(** X11: the texts that a run of [signature_for_transaction] that returns
    leaves behind: the [SigningPubKey] field of the transaction holds 66
    characters out of [0-9A-F], the first two of which are [02] or [03],
    and the signature returned is a text of the same characters, of even
    length. *)
Theorem signing_texts_are_upper_case_hex (transaction : loc) (secret sig : string)
    (w w' : world) :
  signature_for_transaction sha512 generator_mul RippleBaseDecoder_decode
    serialize_object randrange Private_key_sign sigencode_der
    transaction secret w = (Ok sig, w') ->
  (exists d' rest,
     heap w' !! transaction = Some d' /\
     (d' !! "SigningPubKey" = Some (PyStr ("02" +:+ rest)) \/
      d' !! "SigningPubKey" = Some (PyStr ("03" +:+ rest))) /\
     String.length rest = 64%nat /\
     all_chars upper_hex_char rest = true) /\
  Nat.even (String.length sig) = true /\
  all_chars upper_hex_char sig = true.
Proof.
  intros Hsig.
  destruct (signature_for_transaction_eval transaction secret) as (before & Hpub & Hrun).
  rewrite Hrun in Hsig. clear Hrun.
  destruct before as [[key pubkey] | e]; [|discriminate].
  specialize (Hpub key pubkey eq_refl).
  destruct (heap w !! transaction) as [d|]; [|discriminate]. cbv zeta in Hsig.
  destruct (serialize_object _) as [serialized | e]; [|discriminate].
  destruct (Private_key_sign _ _ _) as [[sig_r sig_s] | e]; [|discriminate].
  injection Hsig as <- <-.
  destruct (public_point key) as [|x y]; [discriminate|].
  destruct (ecc_point_to_bytes_compressed_inv _ _ _ _ Hpub) as (body & -> & _ & Hlen).
  specialize (Hlen eq_refl).
  split.
  - eexists. exists (fmt_hex body). split; [apply lookup_insert_eq|].
    rewrite lookup_insert_eq.
    split; [destruct (y mod 2 =? 0); [left | right]; reflexivity|].
    split; [rewrite length_fmt_hex, Hlen; reflexivity | apply fmt_hex_upper_hex].
  - split; [|apply fmt_hex_upper_hex].
    rewrite length_fmt_hex. rewrite Nat.even_mul. reflexivity.
Qed.

(** X12: when the digests of the hash function have 64 bytes, the text
    that [create_signing_hash] returns has 64 characters, all of them out
    of [0-9A-F], with or without the testnet flag, and the state is as it
    was. *)
Theorem create_signing_hash_text (transaction : loc) (testnet : bool)
    (signing_hash : string) (w w' : world) :
  (forall msg, String.length (sha512 msg) = 64%nat) ->
  create_signing_hash sha512 serialize_object transaction testnet w =
  (Ok signing_hash, w') ->
  String.length signing_hash = 64%nat /\
  all_chars upper_hex_char signing_hash = true /\
  w' = w.
Proof.
  intros Hdigest Hrun.
  destruct (heap w !! transaction) as [d|] eqn:Hd.
  2: { unfold create_signing_hash, mbind at 1 2 3, M_bind, lift, fields in Hrun.
       rewrite Hd in Hrun. destruct (to_bytes _ _); discriminate. }
  rewrite (create_signing_hash_run sha512 serialize_object _ _ _ _ Hd) in Hrun.
  destruct (serialize_object d) as [serialized | e]; [|discriminate].
  injection Hrun as <- <-.
  split; [|split; [apply fmt_hex_upper_hex | reflexivity]].
  rewrite length_fmt_hex, first_half_of_sha512_two, length_slice_to_exact.
  - reflexivity.
  - rewrite Hdigest. lia.
Qed.

End Signing.

Lemma signing_reads_only_its_transaction_witness :
  heap Vectors.w0 !! Vectors.transaction = heap Refusals.w1 !! Vectors.transaction /\
  drawn Vectors.w0 = drawn Refusals.w1 /\
  let sig := signature_for_transaction SHA512.digest SECP256k1.generator_mul
               Vectors.decode Vectors.serialize Vectors.nonce Vectors.sign Vectors.der
               Vectors.transaction Vectors.wiki_secret in
  let signed := sign_transaction SHA512.digest SECP256k1.generator_mul
                  Vectors.decode Vectors.serialize Vectors.nonce Vectors.sign Vectors.der
                  Vectors.transaction Vectors.wiki_secret in
  fst (sig Vectors.w0) = fst (sig Refusals.w1) /\
  heap (snd (sig Vectors.w0)) !! Vectors.transaction =
  heap (snd (sig Refusals.w1)) !! Vectors.transaction /\
  fst (signed Vectors.w0) = fst (signed Refusals.w1) /\
  heap (snd (signed Vectors.w0)) !! Vectors.transaction =
  heap (snd (signed Refusals.w1)) !! Vectors.transaction.
Proof.
  split; [reflexivity|]. split; [reflexivity|].
  exact (signing_reads_only_its_transaction SHA512.digest SECP256k1.generator_mul
           Vectors.decode Vectors.serialize Vectors.nonce Vectors.sign Vectors.der
           Vectors.transaction Vectors.wiki_secret Vectors.w0 Refusals.w1
           eq_refl eq_refl).
Defined.

Lemma signing_texts_are_upper_case_hex_witness :
  signature_for_transaction SHA512.digest SECP256k1.generator_mul Vectors.decode
    Vectors.serialize Vectors.nonce Vectors.sign Vectors.der
    Vectors.transaction Vectors.wiki_secret Vectors.w0 =
  (Ok Vectors.wiki_signature, Vectors.wiki_signed) /\
  (exists d' rest,
     heap Vectors.wiki_signed !! Vectors.transaction = Some d' /\
     (d' !! "SigningPubKey" = Some (PyStr ("02" +:+ rest)) \/
      d' !! "SigningPubKey" = Some (PyStr ("03" +:+ rest))) /\
     String.length rest = 64%nat /\
     all_chars upper_hex_char rest = true) /\
  Nat.even (String.length Vectors.wiki_signature) = true /\
  all_chars upper_hex_char Vectors.wiki_signature = true.
Proof.
  split; [exact wiki_signature_run|].
  exact (signing_texts_are_upper_case_hex SHA512.digest SECP256k1.generator_mul
           Vectors.decode Vectors.serialize Vectors.nonce Vectors.sign Vectors.der
           Vectors.transaction Vectors.wiki_secret Vectors.wiki_signature
           Vectors.w0 Vectors.wiki_signed wiki_signature_run).
Defined.

Lemma create_signing_hash_text_witness :
  (forall msg, String.length (SHA512.digest msg) = 64%nat) /\
  create_signing_hash SHA512.digest Vectors.serialize Vectors.transaction false
    Vectors.wiki_signed = (Ok Vectors.wiki_signing_hash, Vectors.wiki_signed) /\
  String.length Vectors.wiki_signing_hash = 64%nat /\
  all_chars upper_hex_char Vectors.wiki_signing_hash = true /\
  Vectors.wiki_signed = Vectors.wiki_signed.
Proof.
  assert (Hrun : create_signing_hash SHA512.digest Vectors.serialize Vectors.transaction
                   false Vectors.wiki_signed =
                 (Ok Vectors.wiki_signing_hash, Vectors.wiki_signed))
    by (vm_compute; reflexivity).
  split; [exact SHA512_digest_length|]. split; [exact Hrun|].
  exact (create_signing_hash_text SHA512.digest Vectors.serialize Vectors.transaction
           false Vectors.wiki_signing_hash Vectors.wiki_signed Vectors.wiki_signed
           SHA512_digest_length Hrun).
Defined.

(** ** Signing again, and the address of the signing key *)

Section Again.

Variable sha512 : string -> string.
Variable sha256 : string -> string.
Variable ripemd160 : string -> string.
Variable generator_mul : Z -> point.
Variable RippleBaseDecoder_decode : string -> result string.
Variable RippleBaseDecoder_encode : string -> result string.
Variable serialize_object : gmap string pyvalue -> result string.
Variable randrange : nat -> Z.
Variable Private_key_sign : Z -> Z -> Z -> result (Z * Z).
Variable sigencode_der : Z -> Z -> string.

(** X13: the write of the public key is idempotent: a call of
    [signature_for_transaction] that returns has drawn one nonce, and in
    the state that it has left a second call with the same secret changes
    no object, whether it returns or raises. *)
Theorem signing_again_writes_nothing_new (transaction : loc) (secret sig : string)
    (w w' : world) :
  signature_for_transaction sha512 generator_mul RippleBaseDecoder_decode
    serialize_object randrange Private_key_sign sigencode_der
    transaction secret w = (Ok sig, w') ->
  drawn w' = S (drawn w) /\
  heap (snd (signature_for_transaction sha512 generator_mul RippleBaseDecoder_decode
               serialize_object randrange Private_key_sign sigencode_der
               transaction secret w')) = heap w'.
Proof.
  intros Hsig.
  destruct (signature_for_transaction_eval sha512 generator_mul RippleBaseDecoder_decode
              serialize_object randrange Private_key_sign sigencode_der
              transaction secret) as (before & _ & Hrun).
  rewrite Hrun in Hsig. rewrite Hrun. clear Hrun.
  destruct before as [[key pubkey] | e]; [|discriminate].
  destruct (heap w !! transaction) as [d|]; [|discriminate]. cbv zeta in Hsig.
  destruct (serialize_object _) as [serialized | e] eqn:Hser; [|discriminate].
  destruct (Private_key_sign _ _ _) as [[sig_r sig_s] | e]; [|discriminate].
  injection Hsig as <- <-. split; [reflexivity|].
  simpl heap. rewrite lookup_insert_eq. cbv zeta.
  rewrite !insert_insert_eq. rewrite Hser. simpl.
  now destruct (Private_key_sign _ _ _) as [[sig_r' sig_s'] | e].
Qed.

(** X14: signing and address derivation use the same key: when
    [signature_for_transaction] returns, the [SigningPubKey] field holds
    the hexadecimal text of the very bytes from which
    [get_ripple_from_secret] derives the address of that secret. *)
Theorem address_is_the_one_of_the_signing_key (transaction : loc) (secret sig : string)
    (w w' : world) :
  signature_for_transaction sha512 generator_mul RippleBaseDecoder_decode
    serialize_object randrange Private_key_sign sigencode_der
    transaction secret w = (Ok sig, w') ->
  exists pubkey d',
    heap w' !! transaction = Some d' /\
    d' !! "SigningPubKey" = Some (PyStr (fmt_hex pubkey)) /\
    forall w2,
      get_ripple_from_secret sha512 sha256 ripemd160 generator_mul
        RippleBaseDecoder_decode RippleBaseDecoder_encode secret w2 =
      get_ripple_from_pubkey sha256 ripemd160 RippleBaseDecoder_encode pubkey w2.
Proof.
  intros Hsig.
  destruct (heap w !! transaction) as [d|] eqn:Hd.
  2: { destruct (signature_for_transaction_no_object sha512 generator_mul
                   RippleBaseDecoder_decode serialize_object randrange Private_key_sign
                   sigencode_der transaction secret w Hd) as [e He].
       rewrite He in Hsig. discriminate. }
  pose proof (signature_for_transaction_frame sha512 generator_mul
                RippleBaseDecoder_decode serialize_object randrange Private_key_sign
                sigencode_der transaction secret w d Hd) as Hframe.
  rewrite Hsig in Hframe. destruct Hframe as (d' & Hheap & _ & Hok).
  destruct (Hok sig eq_refl)
    as (seed & key & pubkey & _ & _ & _ & Hparse & Hkey & Hpub & -> & _).
  exists pubkey. eexists. split; [rewrite Hheap; apply lookup_insert_eq|].
  split; [apply lookup_insert_eq|]. intros w2.
  destruct (parse_seed_effect_free RippleBaseDecoder_decode secret) as [rp Hp].
  destruct (root_key_from_seed_effect_free sha512 generator_mul seed) as [rk Hk].
  rewrite Hp in Hparse. injection Hparse as ->.
  rewrite Hk in Hkey. injection Hkey as ->.
  unfold get_ripple_from_secret, mbind at 1 2 3, M_bind, lift.
  now rewrite Hp, Hk, Hpub.
Qed.

End Again.

Lemma signing_again_writes_nothing_new_witness :
  signature_for_transaction SHA512.digest SECP256k1.generator_mul Vectors.decode
    Vectors.serialize Vectors.nonce Vectors.sign Vectors.der
    Vectors.transaction Vectors.wiki_secret Vectors.w0 =
  (Ok Vectors.wiki_signature, Vectors.wiki_signed) /\
  drawn Vectors.wiki_signed = S (drawn Vectors.w0) /\
  heap (snd (signature_for_transaction SHA512.digest SECP256k1.generator_mul
               Vectors.decode Vectors.serialize Vectors.nonce Vectors.sign Vectors.der
               Vectors.transaction Vectors.wiki_secret Vectors.wiki_signed)) =
  heap Vectors.wiki_signed.
Proof.
  split; [exact wiki_signature_run|].
  exact (signing_again_writes_nothing_new SHA512.digest SECP256k1.generator_mul
           Vectors.decode Vectors.serialize Vectors.nonce Vectors.sign Vectors.der
           Vectors.transaction Vectors.wiki_secret Vectors.wiki_signature
           Vectors.w0 Vectors.wiki_signed wiki_signature_run).
Defined.

Lemma address_is_the_one_of_the_signing_key_witness :
  signature_for_transaction SHA512.digest SECP256k1.generator_mul Vectors.decode
    Vectors.serialize Vectors.nonce Vectors.sign Vectors.der
    Vectors.transaction Vectors.wiki_secret Vectors.w0 =
  (Ok Vectors.wiki_signature, Vectors.wiki_signed) /\
  exists pubkey d',
    heap Vectors.wiki_signed !! Vectors.transaction = Some d' /\
    d' !! "SigningPubKey" = Some (PyStr (fmt_hex pubkey)) /\
    forall w2,
      get_ripple_from_secret SHA512.digest Vectors.sha256 Vectors.ripemd160
        SECP256k1.generator_mul Vectors.decode Vectors.encode Vectors.wiki_secret w2 =
      get_ripple_from_pubkey Vectors.sha256 Vectors.ripemd160 Vectors.encode pubkey w2.
Proof.
  split; [exact wiki_signature_run|].
  exact (address_is_the_one_of_the_signing_key SHA512.digest Vectors.sha256
           Vectors.ripemd160 SECP256k1.generator_mul Vectors.decode Vectors.encode
           Vectors.serialize Vectors.nonce Vectors.sign Vectors.der
           Vectors.transaction Vectors.wiki_secret Vectors.wiki_signature
           Vectors.w0 Vectors.wiki_signed wiki_signature_run).
Defined.
